(** * PYPOWER [int2ext]: conversion from internal back to external numbering

    A shallow embedding of [pypower/int2ext.py] and the properties of its
    whole-case restore, named-field, raw-value and legacy entry points.

    Python objects are values of the type [value]; a [dict] is a finite map
    with string keys, a 2-D numpy table is an [ndarray] (its column count and
    the list of its rows) and a 1-D integer numpy vector is a list of
    integers.  Table entries are integers: the identifier columns hold
    integers and every other column is payload that the code only moves.

    A Python computation is a value of [M]: the messages it passed to
    [logger.error], in order, and either its result or the exception it
    raised.  Objects are immutable here, so an assignment through a
    subscript rebuilds the enclosing value; the places where the source
    shares one array between two dictionaries are written out
    ([store_table]). *)

From Stdlib Require Import Ascii String ZArith.
From stdpp Require Import gmap strings list fin_maps.

Local Set Warnings "-register-all".
Local Open Scope string_scope.

(** ** Python values *)

(** A 2-D numpy array: shape [(length rows, ncols)]. *)
Record ndarray := NdArray { ncols : nat; rows : list (list Z) }.

Inductive value :=
| VNone
| VInt (n : Z)
| VStr (s : string)
| VList (l : list value)
| VTuple (l : list value)
| VVec (v : list Z)
| VArr (a : ndarray)
| VDict (d : gmap string value).

Inductive exn :=
| KeyError (k : string)
| AttributeError (a : string)
| NameError (n : string)
| TypeError
| IndexError
| ValueError
| RecursionError
| CallbackError.

Inductive result (A : Type) :=
| Ok (a : A)
| Raise (e : exn).
Arguments Ok {A} a.
Arguments Raise {A} e.

(** ** The monad of logged, fallible computations *)

Record M (A : Type) := Run { logged : list string; outcome : result A }.
Arguments Run {A} logged outcome.
Arguments logged {A} m.
Arguments outcome {A} m.

Definition ret {A} (a : A) : M A := Run [] (Ok a).
Definition raise {A} (e : exn) : M A := Run [] (Raise e).
Definition log_error (msg : string) : M unit := Run [msg] (Ok tt).

Definition bind {A B} (m : M A) (f : A → M B) : M B :=
  match m with
  | Run l (Ok a) => let '(Run l' r) := f a in Run (l ++ l') r
  | Run l (Raise e) => Run l (Raise e)
  end.

#[global] Instance M_ret : MRet M := @ret.
#[global] Instance M_bind : MBind M := λ A B f m, bind m f.

Definition of_option {A} (e : exn) (x : option A) : M A :=
  match x with Some a => ret a | None => raise e end.

(** [mapM f l]: run [f] on the elements of [l] from left to right. *)
Fixpoint mapM {A B} (f : A → M B) (l : list A) : M (list B) :=
  match l with
  | [] => ret []
  | x :: l' => y ← f x; ys ← mapM f l'; ret (y :: ys)
  end.

(** [foldM f l s]: a [for] loop over [l] threading the loop variables [s]. *)
Fixpoint foldM {A S} (f : A → S → M S) (l : list A) (s : S) : M S :=
  match l with
  | [] => ret s
  | x :: l' => s' ← f x s; foldM f l' s'
  end.

(** ** Subscripts, attributes and built-ins *)

(** [seq[i]] on a sequence of length [n]: a negative index counts from the end. *)
Definition norm_index (n : nat) (i : Z) : option nat :=
  if decide (0 ≤ i < Z.of_nat n)%Z then Some (Z.to_nat i)
  else if decide (- Z.of_nat n ≤ i < 0)%Z then Some (Z.to_nat (i + Z.of_nat n))
  else None.

(** [v[k]] with a string key. *)
Definition getitem (v : value) (k : string) : M value :=
  match v with
  | VDict d => of_option (KeyError k) (d !! k)
  | _ => raise TypeError
  end.

(** [v[k1][k2]...] *)
Fixpoint getpath (v : value) (ks : list string) : M value :=
  match ks with
  | [] => ret v
  | k :: ks' => x ← getitem v k; getpath x ks'
  end.

(** [v[k] = x] with a string key. *)
Definition setitem (v : value) (k : string) (x : value) : M value :=
  match v with
  | VDict d => ret (VDict (<[k:=x]> d))
  | _ => raise TypeError
  end.

(** [v.has_key(k)] *)
Definition has_key (v : value) (k : string) : M bool :=
  match v with
  | VDict d => ret (bool_decide (is_Some (d !! k)))
  | _ => raise (AttributeError "has_key")
  end.

Definition dict_has (d : gmap string value) (k : string) : bool :=
  bool_decide (is_Some (d !! k)).

(** [v[i]] with an integer index. *)
Definition getitem_int (v : value) (i : Z) : M value :=
  match v with
  | VList l | VTuple l =>
      n ← of_option IndexError (norm_index (length l) i);
      of_option IndexError (l !! n)
  | VVec l =>
      n ← of_option IndexError (norm_index (length l) i);
      x ← of_option IndexError (l !! n);
      ret (VInt x)
  | VArr a =>
      n ← of_option IndexError (norm_index (length (rows a)) i);
      r ← of_option IndexError (rows a !! n);
      ret (VVec r)
  | VDict _ => raise (KeyError "")
  | _ => raise TypeError
  end.

(** [v.a]: arrays have a [shape]; no other attribute is read in the source
    except [ext] on a dict, which a dict does not have. *)
Definition getattr (v : value) (a : string) : M value :=
  match v with
  | VArr arr =>
      if String.eqb a "shape"
      then ret (VTuple [VInt (Z.of_nat (length (rows arr))); VInt (Z.of_nat (ncols arr))])
      else raise (AttributeError a)
  | VVec l =>
      if String.eqb a "shape"
      then ret (VTuple [VInt (Z.of_nat (length l))])
      else raise (AttributeError a)
  | _ => raise (AttributeError a)
  end.

(** [len(v)] *)
Definition py_len (v : value) : M nat :=
  match v with
  | VList l | VTuple l => ret (length l)
  | VStr s => ret (String.length s)
  | VVec l => ret (length l)
  | VArr a => ret (length (rows a))
  | VDict d => ret (size d)
  | VNone | VInt _ => raise TypeError
  end.

(** [range(v)] (Python 2: a list) *)
Definition py_range (v : value) : M value :=
  match v with
  | VInt n => ret (VList ((λ k : nat, VInt (Z.of_nat k)) <$> seq 0 (Z.to_nat n)))
  | _ => raise TypeError
  end.

(** [a + b] *)
Definition py_add (a b : value) : M value :=
  match a, b with
  | VInt x, VInt y => ret (VInt (x + y))
  | VStr x, VStr y => ret (VStr (x ++ y))
  | VList x, VList y => ret (VList (x ++ y))
  | VTuple x, VTuple y => ret (VTuple (x ++ y))
  | VInt x, VVec y => ret (VVec ((λ z, x + z)%Z <$> y))
  | VVec x, VInt y => ret (VVec ((λ z, z + y)%Z <$> x))
  | VVec x, VVec y =>
      if decide (length x = length y)
      then ret (VVec (zip_with Z.add x y)) else raise ValueError
  | _, _ => raise TypeError
  end.

(** ** numpy indexing *)

(** The table a two-index subscript [t[i, j]] is applied to. *)
Definition arr_target (v : value) : M ndarray :=
  match v with
  | VArr a => ret a
  | VVec _ => raise IndexError
  | _ => raise TypeError
  end.

(** The right-hand side of an assignment into a block of rows. *)
Definition arr_source (v : value) : M ndarray :=
  match v with
  | VArr a => ret a
  | VVec l => ret (NdArray (length l) [l])
  | VInt z => ret (NdArray 1 [[z]])
  | _ => raise ValueError
  end.

(** An index vector: a 1-D integer array or a list of integers. *)
Definition vec_index (v : value) : M (list Z) :=
  match v with
  | VVec l => ret l
  | VList l => mapM (λ x, match x with VInt z => ret z | _ => raise IndexError end) l
  | _ => raise IndexError
  end.

(** The vector a one-index subscript with an index vector is applied to. *)
Definition vec_target (v : value) : M (list Z) :=
  match v with
  | VVec l => ret l
  | _ => raise TypeError
  end.

(** [v[idx]] *)
Definition np_take (v : list Z) (idx : list Z) : M (list Z) :=
  mapM (λ i, n ← of_option IndexError (norm_index (length v) i);
             of_option IndexError (v !! n)) idx.

(** [a[idx, :]] *)
Definition np_take_rows (a : ndarray) (idx : list Z) : M ndarray :=
  rs ← mapM (λ i, n ← of_option IndexError (norm_index (length (rows a)) i);
                  of_option IndexError (rows a !! n)) idx;
  ret (NdArray (ncols a) rs).

(** [a[idx, c]] *)
Definition np_get_at (a : ndarray) (idx : list Z) (c : nat) : M (list Z) :=
  mapM (λ i, n ← of_option IndexError (norm_index (length (rows a)) i);
             r ← of_option IndexError (rows a !! n);
             of_option IndexError (r !! c)) idx.

(** [a[:, c]] *)
Definition np_get_col (a : ndarray) (c : nat) : M (list Z) :=
  if decide (c < ncols a)%nat
  then mapM (λ r : list Z, of_option IndexError (r !! c)) (rows a)
  else raise IndexError.

(** Broadcasting of a block [b] to [m] rows of [c] columns. *)
Definition broadcast (m c : nat) (b : ndarray) : M (list (list Z)) :=
  rs ← (if decide (ncols b = c) then ret (rows b)
        else if decide (ncols b = 1%nat)
             then ret ((λ r, replicate c (hd 0%Z r)) <$> rows b)
             else raise ValueError);
  if decide (length rs = m) then ret rs
  else match rs with
       | [r] => ret (replicate m r)
       | _ => raise ValueError
       end.

(** Broadcasting of a vector [x] to length [m]. *)
Definition broadcast_vec (m : nat) (x : list Z) : M (list Z) :=
  if decide (length x = m) then ret x
  else match x with
       | [z] => ret (replicate m z)
       | _ => raise ValueError
       end.

(** Writes [rs] at the row positions [idx], in order: a position listed
    twice keeps the later row. *)
Fixpoint put_rows (l : list (list Z)) (idx : list Z) (rs : list (list Z))
  : M (list (list Z)) :=
  match idx, rs with
  | i :: idx', r :: rs' =>
      n ← of_option IndexError (norm_index (length l) i);
      put_rows (<[n := r]> l) idx' rs'
  | _, _ => ret l
  end.

(** [a[idx, :] = b] *)
Definition np_set_rows (a : ndarray) (idx : list Z) (b : ndarray) : M ndarray :=
  rs ← broadcast (length idx) (ncols a) b;
  l ← put_rows (rows a) idx rs;
  ret (NdArray (ncols a) l).

(** Writes [xs] into column [c] at the row positions [idx], in order. *)
Fixpoint put_at (l : list (list Z)) (idx : list Z) (c : nat) (xs : list Z)
  : M (list (list Z)) :=
  match idx, xs with
  | i :: idx', x :: xs' =>
      n ← of_option IndexError (norm_index (length l) i);
      r ← of_option IndexError (l !! n);
      _ ← (if decide (c < length r)%nat then ret tt else raise IndexError);
      put_at (<[n := <[c := x]> r]> l) idx' c xs'
  | _, _ => ret l
  end.

(** [a[idx, c] = x] *)
Definition np_set_at (a : ndarray) (idx : list Z) (c : nat) (x : list Z)
  : M ndarray :=
  xs ← broadcast_vec (length idx) x;
  l ← put_at (rows a) idx c xs;
  ret (NdArray (ncols a) l).

(** [a[:, c] = x] *)
Definition np_set_col (a : ndarray) (c : nat) (x : list Z) : M ndarray :=
  if decide (c < ncols a)%nat
  then xs ← broadcast_vec (length (rows a)) x;
       ret (NdArray (ncols a) (zip_with (λ r v, <[c := v]> r) (rows a) xs))
  else raise IndexError.

(** [v.any()] *)
Definition np_any (v : value) : M bool :=
  match v with
  | VArr a => ret (existsb (existsb (λ z, negb (Z.eqb z 0))) (rows a))
  | VVec l => ret (existsb (λ z, negb (Z.eqb z 0)) l)
  | _ => raise (AttributeError "any")
  end.

(** ** The program *)

Definition dquote : string := String "034"%char EmptyString.

Definition msg_no_order : string :=
  "int2ext: mpc does not have the " ++ dquote ++ "order" ++ dquote ++
  " field require for conversion back to external numbering.".

Definition msg_already_external : string :=
  "int2ext: mpc claims it is already using external numbering.".

(** [o["state"] == 'i'] *)
Definition is_internal (st : value) : bool :=
  match st with VStr s => String.eqb s "i" | _ => false end.

(** [x if x is not None else 1]: the default of the [dim] argument. *)
Definition default_dim (x : value) : value :=
  match x with VNone => VInt 1 | _ => x end.

(** After [mpc[k] = o["ext"][k]] the live table and the snapshot are one
    array: a write through [mpc[k]] shows in [o["ext"][k]] too. *)
Definition store_table (k : string) (a : ndarray)
    (mpc o : gmap string value) : gmap string value * gmap string value :=
  (<[k := VArr a]> mpc,
   match o !! "ext" with
   | Some (VDict e) => <["ext" := VDict (<[k := VArr a]> e)]> o
   | _ => o
   end).

(** [o["int"][k] = mpc[k]] *)
Definition save_int (k : string) (mpc o : gmap string value)
  : M (gmap string value) :=
  x ← getitem (VDict mpc) k;
  i ← getitem (VDict o) "int";
  i' ← setitem i k x;
  ret (<["int" := i']> o).

(** [mpc[k] = o["ext"][k]] *)
Definition load_ext (k : string) (mpc o : gmap string value)
  : M (gmap string value) :=
  x ← getpath (VDict o) ["ext"; k];
  ret (<[k := x]> mpc).

(** [if mpc.has_key(k): o["int"][k] = mpc[k]; mpc[k] = o["ext"][k]] *)
Definition swap_optional (k : string) (mpc o : gmap string value)
  : M (gmap string value * gmap string value) :=
  if dict_has mpc k
  then o' ← save_int k mpc o;
       mpc' ← load_ext k mpc o';
       ret (mpc', o')
  else ret (mpc, o).

(** [base[on, :] = src] on the array objects. *)
Definition scatter_table (base on src : value) : M ndarray :=
  a ← arr_target base;
  idx ← vec_index on;
  b ← arr_source src;
  np_set_rows a idx b.

(** [a[on, col] = i2e[ a[on, col] ]] on the array objects. *)
Definition renumber_col (i2e on : value) (col : nat) (a : ndarray) : M ndarray :=
  idx ← vec_index on;
  ids ← np_get_at a idx col;
  m ← vec_target i2e;
  ext_ids ← np_take m ids;
  np_set_at a idx col ext_ids.

(** [mpc[k][o[k]["status"]["on"], :] = rhs] *)
Definition assign_rows (k : string) (rhs : M value)
    (mpc o : gmap string value) : M (gmap string value * gmap string value) :=
  v ← rhs;
  t ← getitem (VDict mpc) k;
  on ← getpath (VDict o) [k; "status"; "on"];
  a' ← scatter_table t on v;
  ret (store_table k a' mpc o).

(** [g[o["gen"]["i2e"], :]] *)
Definition unpermute (o : gmap string value) (g : value) : M value :=
  p ← getpath (VDict o) ["gen"; "i2e"];
  a ← arr_target g;
  idx ← vec_index p;
  r ← np_take_rows a idx;
  ret (VArr r).

(** [o["int"]["gen"][o["gen"]["i2e"], :]] *)
Definition gen_unpermuted (o : gmap string value) : M value :=
  g ← getpath (VDict o) ["int"; "gen"];
  unpermute o g.

(** [mpc[k][o[k]["status"]["on"], col] =
       o["bus"]["i2e"][ mpc[k][o[k]["status"]["on"], col] ]] *)
Definition fix_ids (k : string) (col : nat)
    (mpc o : gmap string value) : M (gmap string value * gmap string value) :=
  i2e ← getpath (VDict o) ["bus"; "i2e"];
  t ← getitem (VDict mpc) k;
  on ← getpath (VDict o) [k; "status"; "on"];
  a ← arr_target t;
  a' ← renumber_col i2e on col a;
  ret (store_table k a' mpc o).

(** [t[:, col] = i2e[ t[:, col] ]] *)
Definition remap_col (i2e t : value) (col : nat) : M value :=
  a ← arr_target t;
  ids ← np_get_col a col;
  m ← vec_target i2e;
  ext_ids ← np_take m ids;
  a' ← np_set_col a col ext_ids;
  ret (VArr a').

Section Int2Ext.

(** Column positions, from [bus_idx], [gen_idx], [brch_idx] and [idx_area]. *)
Variables BUS_I GEN_BUS F_BUS T_BUS PRICE_REF_BUS : nat.

(** [get_reorder(A, idx, dim)] and [set_reorder(A, B, idx, dim)], from the
    modules of the same names. *)
Variable get_reorder : value → value → value → M value.
Variable set_reorder : value → value → value → value → M value.

(** [run_userfcn(userfcn, stage, mpc)], from [run_userfcn].  The callbacks
    reach the order object [o] through [mpc["order"]] and may change it in
    place: the result is the case handed back together with the contents of
    [o] afterwards. *)
Variable run_userfcn :
  value → string → gmap string value → gmap string value →
  M (gmap string value * gmap string value).

(** Lines 106-107. *)
Definition userfcn_stage (mpc o : gmap string value)
  : M (gmap string value * gmap string value) :=
  if dict_has mpc "userfcn"
  then uf ← getitem (VDict mpc) "userfcn";
       run_userfcn uf "int2ext" mpc o
  else ret (mpc, o).

(** Lines 110-127: save data matrices with internal ordering and restore
    originals. *)
Definition swap_tables (mpc o : gmap string value)
  : M (gmap string value * gmap string value) :=
  o ← save_int "bus" mpc o;
  o ← save_int "branch" mpc o;
  o ← save_int "gen" mpc o;
  mpc ← load_ext "bus" mpc o;
  mpc ← load_ext "branch" mpc o;
  mpc ← load_ext "gen" mpc o;
  '(mpc, o) ← swap_optional "gencost" mpc o;
  '(mpc, o) ← swap_optional "areas" mpc o;
  '(mpc, o) ← swap_optional "A" mpc o;
  swap_optional "N" mpc o.

(** Lines 130-138: update data (in bus, branch and gen only). *)
Definition update_data (mpc o : gmap string value)
  : M (gmap string value * gmap string value) :=
  '(mpc, o) ← assign_rows "bus" (getpath (VDict o) ["int"; "bus"]) mpc o;
  '(mpc, o) ← assign_rows "branch" (getpath (VDict o) ["int"; "branch"]) mpc o;
  '(mpc, o) ← assign_rows "gen" (gen_unpermuted o) mpc o;
  if dict_has mpc "areas"
  then assign_rows "areas" (getpath (VDict o) ["int"; "areas"]) mpc o
  else ret (mpc, o).

(** Lines 141-156: revert to original bus numbers. *)
Definition revert_bus_numbers (mpc o : gmap string value)
  : M (gmap string value * gmap string value) :=
  '(mpc, o) ← fix_ids "bus" BUS_I mpc o;
  '(mpc, o) ← fix_ids "branch" F_BUS mpc o;
  '(mpc, o) ← fix_ids "branch" T_BUS mpc o;
  '(mpc, o) ← fix_ids "gen" GEN_BUS mpc o;
  if dict_has mpc "areas"
  then fix_ids "areas" PRICE_REF_BUS mpc o
  else ret (mpc, o).

(** Lines 110-161: the restore proper, on the locals [mpc] and [o]. *)
Definition restore_body (mpc o : gmap string value) : M (gmap string value) :=
  '(mpc, o) ← swap_tables mpc o;
  '(mpc, o) ← update_data mpc o;
  '(mpc, o) ← revert_bus_numbers mpc o;
  (* if o.has_key('ext'): del o['ext'] *)
  let o := if dict_has o "ext" then delete "ext" o else o in
  let o := <["state" := VStr "e"]> o in
  ret (<["order" := VDict o]> mpc).

(** Lines 98-166: [int2ext(mpc)], the case alone. *)
Definition whole_case (mpc : gmap string value) : M (gmap string value) :=
  _ ← (if dict_has mpc "order" then ret tt else log_error msg_no_order);
  ov ← getitem (VDict mpc) "order";
  st ← getitem ov "state";
  match ov with
  | VDict o =>
      if is_internal st
      then '(mpc, o) ← userfcn_stage mpc o;
           restore_body mpc o
      else _ ← log_error msg_already_external;
           ret mpc
  | _ => raise TypeError
  end.

(** Lines 209-216: one turn of the loop over the tags of a composite
    ordering; [be] and [bi] are the loop's running bases and [recur] is the
    call of [int2ext] on the block. *)
Definition ordering_block
    (recur : value → value → value → value → value
             → M (value * value * value * value))
    (mpc : gmap string value) (o val oldval ordering dim : value)
    (k : nat) (b : value * value) : M (value * value) :=
  let '(be, bi) := b in
  e ← getpath o ["ext"; "ordering"];
  ek ← getitem_int e (Z.of_nat k);
  she ← getattr ek "shape";
  ne ← getitem_int she 0;
  m ← getitem (VDict mpc) "ordering";
  mk ← getitem_int m (Z.of_nat k);
  shi ← getattr mk "shape";
  ni ← getitem_int shi 0;
  ri ← py_range ni;
  idxi ← py_add bi ri;
  v ← get_reorder val idxi dim;
  re ← py_range ne;
  idxe ← py_add be re;
  oldv ← get_reorder oldval idxe dim;
  tag ← getitem_int ordering (Z.of_nat k);
  _ ← recur (VDict mpc) v oldv tag dim;
  (* new_v[k] = ...: the name new_v is bound nowhere *)
  raise (NameError "new_v").

(** [int2ext(i2e, bus, gen, branch, areas)]; [depth] bounds the nesting of
    the calls of [int2ext] by itself. *)
Fixpoint int2ext (depth : nat) (i2e bus gen branch areas : value)
  : M (value * value * value * value) :=
  match depth with
  | O => raise RecursionError
  | S depth' =>
    match i2e with
    | VDict mpc =>
      match bus with
      | VNone =>
          (* nargin == 1 *)
          mpc' ← whole_case mpc;
          ret (VDict mpc', gen, branch, areas)
      | VStr _ | VList _ =>
          (* field *)
          let field := bus in
          let ordering := gen in
          let dim := default_dim branch in
          match field with
          | VStr _ =>
              (* mpc["order"]["int"]["field"] = mpc["field"] *)
              x ← getitem (VDict mpc) "field";
              ord ← getitem (VDict mpc) "order";
              i ← getitem ord "int";
              i' ← setitem i "field" x;
              ord' ← setitem ord "int" i';
              let mpc := <["order" := ord']> mpc in
              (* mpc["field"] = int2ext(mpc, mpc["field"],
                                  mpc["order"].ext["field"], ordering, dim) *)
              val ← getitem (VDict mpc) "field";
              ord ← getitem (VDict mpc) "order";
              ext ← getattr ord "ext";
              oldval ← getitem ext "field";
              '(r1, r2, r3, r4) ← int2ext depth' (VDict mpc) val oldval ordering dim;
              ret (VDict (<["field" := VTuple [r1; r2; r3; r4]]> mpc),
                   gen, branch, areas)
          | _ =>
              n ← py_len field;
              (* s[k].type = '.': the name s is bound nowhere *)
              _ ← foldM (λ (k : nat) (_ : unit), raise (NameError "s")) (seq 0 n) tt;
              ord ← getitem (VDict mpc) "order";
              h ← has_key ord "int";
              (* mpc["order"]["int"] = array([]): array is bound nowhere *)
              _ ← (if (h : bool) then ret tt else raise (NameError "array"));
              (* subsasgn is bound nowhere *)
              raise (NameError "subsasgn")
          end
      | _ =>
          (* value *)
          let val := bus in
          let oldval := gen in
          let ordering := branch in
          o ← getitem (VDict mpc) "order";
          let dim := default_dim areas in
          match ordering with
          | VStr tag =>
              (* single set *)
              v ← (if String.eqb tag "gen"
                   then p ← getpath o ["ordering"; "i2e"];
                        get_reorder val p dim
                   else ret val);
              on ← getpath o ["ordering"; "status"; "on"];
              r ← set_reorder oldval v on dim;
              ret (r, gen, branch, areas)
          | _ =>
              (* multiple sets *)
              n ← py_len ordering;
              _ ← foldM (ordering_block (int2ext depth') mpc o val oldval ordering dim)
                    (seq 0 n) (VInt 0, VInt 0);
              (* ni = size(val, dim): size is bound nowhere *)
              raise (NameError "size")
          end
      end
    | _ =>
        (* old form *)
        bus ← remap_col i2e bus BUS_I;
        gen ← remap_col i2e gen GEN_BUS;
        branch ← remap_col i2e branch F_BUS;
        branch ← remap_col i2e branch T_BUS;
        areas ← match areas with
                | VNone => ret areas
                | _ =>
                    match branch with
                    | VNone => ret areas
                    | _ =>
                        nz ← np_any areas;
                        if negb (nz : bool)
                        then remap_col i2e areas PRICE_REF_BUS
                        else ret areas
                    end
                end;
        ret (bus, gen, branch, areas)
    end
  end.

End Int2Ext.

(** ** The row-reorder primitives and concrete cases *)

Definition transpose (a : ndarray) : ndarray :=
  NdArray (length (rows a))
          ((λ c, (λ r : list Z, nth c r 0%Z) <$> rows a) <$> seq 0 (ncols a)).

(** Modelled from the spec: [get_reorder] of the module [get_reorder], the
    "gather" of section 2, which selects the rows (axis 0) or the columns
    (axis 1) of a table listed by an index vector. *)
Definition gather (A idx dim : value) : M value :=
  a ← arr_target A;
  i ← vec_index idx;
  match dim with
  | VInt 0 => r ← np_take_rows a i; ret (VArr r)
  | VInt 1 => r ← np_take_rows (transpose a) i; ret (VArr (transpose r))
  | _ => raise IndexError
  end.

(** Modelled from the spec: [set_reorder] of the module [set_reorder], the
    "scatter" of section 2, which writes the rows (axis 0) or the columns
    (axis 1) of [B] at the positions listed by an index vector into a copy
    of [A]. *)
Definition scatter (A B idx dim : value) : M value :=
  match dim with
  | VInt 0 => r ← scatter_table A idx B; ret (VArr r)
  | VInt 1 =>
      a ← arr_target A;
      b ← arr_source B;
      r ← scatter_table (VArr (transpose a)) idx (VArr (transpose b));
      ret (VArr (transpose r))
  | _ => raise IndexError
  end.

(** A case without the [userfcn] key never reaches the callback runner. *)
Definition no_userfcn (uf : value) (stage : string)
    (mpc o : gmap string value) : M (gmap string value * gmap string value) :=
  raise CallbackError.

(** Callbacks that hand the case back as it is. *)
Definition idle_userfcn (uf : value) (stage : string)
    (mpc o : gmap string value) : M (gmap string value * gmap string value) :=
  ret (mpc, o).

(** [int2ext] with the column positions of PYPOWER's index modules
    ([BUS_I = 0], [GEN_BUS = 0], [F_BUS = 0], [T_BUS = 1],
    [PRICE_REF_BUS = 1]). *)
Definition int2ext_std := int2ext 0 0 0 1 1 gather scatter no_userfcn.

Definition tbl (c : nat) (rs : list (list Z)) : value := VArr (NdArray c rs).

Definition dict (l : list (string * value)) : gmap string value := list_to_map l.

Definition order_entry (on i2e : list Z) : value :=
  VDict (dict [("status", VDict (dict [("on", VVec on)])); ("i2e", VVec i2e)]).

(** Three buses 10, 20, 30 of which bus 20 is isolated, two branches of
    which the second is off-line, three generators of which the second is
    off-line and the other two are swapped in internal order. *)
Definition ex_order : gmap string value :=
  dict [("state", VStr "i");
        ("int", VDict ∅);
        ("ext", VDict (dict
           [("bus", tbl 2 [[10; 100]; [20; 200]; [30; 300]]);
            ("branch", tbl 3 [[10; 30; 7]; [10; 20; 8]]);
            ("gen", tbl 2 [[30; 5]; [20; 6]; [10; 7]]);
            ("gencost", tbl 1 [[1]; [2]; [3]])]));
        ("bus", order_entry [0; 2] [10; 30]);
        ("branch", order_entry [0] [0]);
        ("gen", order_entry [0; 2] [1; 0])]%Z.

Definition ex_case : gmap string value :=
  dict [("bus", tbl 2 [[0; 111]; [1; 333]]);
        ("branch", tbl 3 [[0; 1; 77]]);
        ("gen", tbl 2 [[0; 71]; [1; 51]]);
        ("gencost", tbl 1 [[9]; [8]]);
        ("order", VDict ex_order)]%Z.

(** The case [ex_case] after [int2ext]. *)
Definition ex_restored : gmap string value :=
  Eval vm_compute in
    match outcome (int2ext_std 1 (VDict ex_case) VNone VNone VNone VNone) with
    | Ok (VDict r, _, _, _) => r
    | _ => ∅
    end.

(** [ex_case] with an [areas] table (the second area is dropped in
    internal numbering), the matrices [A] and [N] and an entry [version]. *)
Definition ex_order_full : gmap string value :=
  dict [("state", VStr "i");
        ("int", VDict ∅);
        ("ext", VDict (dict
           [("bus", tbl 2 [[10; 100]; [20; 200]; [30; 300]]);
            ("branch", tbl 3 [[10; 30; 7]; [10; 20; 8]]);
            ("gen", tbl 2 [[30; 5]; [20; 6]; [10; 7]]);
            ("areas", tbl 2 [[1; 10]; [2; 20]; [3; 30]]);
            ("A", tbl 1 [[5]; [6]; [7]]);
            ("N", tbl 1 [[3]])]));
        ("bus", order_entry [0; 2] [10; 30]);
        ("branch", order_entry [0] [0]);
        ("gen", order_entry [0; 2] [1; 0]);
        ("areas", order_entry [0; 2] [0; 1])]%Z.

Definition ex_case_full : gmap string value :=
  dict [("bus", tbl 2 [[0; 111]; [1; 333]]);
        ("branch", tbl 3 [[0; 1; 77]]);
        ("gen", tbl 2 [[0; 71]; [1; 51]]);
        ("areas", tbl 2 [[1; 0]; [3; 1]]);
        ("A", tbl 1 [[4]]);
        ("N", tbl 1 [[2]]);
        ("version", VStr "2");
        ("order", VDict ex_order_full)]%Z.

Definition ex_restored_full : gmap string value :=
  Eval vm_compute in
    match outcome (int2ext_std 1 (VDict ex_case_full) VNone VNone VNone VNone) with
    | Ok (VDict r, _, _, _) => r
    | _ => ∅
    end.

(** A case whose order record has an entry under the key ["ordering"]. *)
Definition ex_case_tag : gmap string value :=
  dict [("order", VDict (dict [("state", VStr "i");
                               ("ordering", order_entry [0; 2] [1; 0])]))]%Z.

(** A case with the block shapes of a composite ordering in place:
    [mpc["ordering"]] and [order.ext["ordering"]]. *)
Definition ex_case_blocks : gmap string value :=
  dict [("ordering", VList [tbl 1 [[1]; [2]]]);
        ("order", VDict (dict
           [("state", VStr "i");
            ("ext", VDict (dict
               [("ordering", VList [tbl 1 [[7]; [8]; [9]]])]))]))]%Z.

(** ** Table-level reading of the restore *)

(** The keys whose live table lines 110-127 exchange with the snapshot. *)
Definition swapped_keys (mpc : gmap string value) : list string :=
  ["bus"; "branch"; "gen"] ++
  filter (λ k, dict_has mpc k = true) ["gencost"; "areas"; "A"; "N"].

(** The locals [m] and [oo] once the tables of the keys [S] are exchanged:
    [oo] is [o] with [int] holding the live tables of [mpc] at [S], and [m]
    is [mpc] with the snapshots of [e] at [S]. *)
Definition swap_state (mpc o i e : gmap string value) (S : list string)
    (m oo : gmap string value) : Prop :=
  ∃ ic, oo = <["int" := VDict ic]> o ∧
    (∀ k, ic !! k = if bool_decide (k ∈ S) then mpc !! k else i !! k) ∧
    (∀ k, m !! k = if bool_decide (k ∈ S) then e !! k else mpc !! k) ∧
    (∀ k, k ∈ S → is_Some (mpc !! k) ∧ is_Some (e !! k)).

(** What lines 130-156 do to the table of class [k]: the rows [src] go to
    the positions [o[k]["status"]["on"]] of the snapshot [o["ext"][k]], then
    the columns [cols] of those rows go through [o["bus"]["i2e"]]. *)
Definition restore_table (o : gmap string value) (k : string) (src : value)
    (cols : list nat) : M ndarray :=
  t ← getpath (VDict o) ["ext"; k];
  on ← getpath (VDict o) [k; "status"; "on"];
  a ← scatter_table t on src;
  i2e ← getpath (VDict o) ["bus"; "i2e"];
  foldM (renumber_col i2e on) cols a.

(** Lines 130-138 on the table of class [k]: [m2[k]] is [m1[k]] with the
    rows [rhs] written at [o1[k]["status"]["on"]]. *)
Definition scattered (m1 o1 : gmap string value) (k : string) (rhs : M value)
    (m2 : gmap string value) : Prop :=
  ∃ t on src a,
    m1 !! k = Some t ∧
    outcome (getpath (VDict o1) [k; "status"; "on"]) = Ok on ∧
    outcome rhs = Ok src ∧
    outcome (scatter_table t on src) = Ok a ∧
    m2 !! k = Some (VArr a).

(** Lines 141-156 on the table of class [k]: [m2[k]] is [m1[k]] with the
    columns [cols] renumbered, one after the other, at
    [o1[k]["status"]["on"]]. *)
Definition renumbered (m1 o1 : gmap string value) (k : string)
    (cols : list nat) (m2 : gmap string value) : Prop :=
  ∃ i2e on a a',
    outcome (getpath (VDict o1) ["bus"; "i2e"]) = Ok i2e ∧
    outcome (getpath (VDict o1) [k; "status"; "on"]) = Ok on ∧
    m1 !! k = Some (VArr a) ∧
    outcome (foldM (renumber_col i2e on) cols a) = Ok a' ∧
    m2 !! k = Some (VArr a').

(** The table of class [k] of the restored case [r]: [restore_table] of
    the rows [src]. *)
Definition restored (o : gmap string value) (k : string) (src : M value)
    (cols : list nat) (r : gmap string value) : Prop :=
  ∃ v a, outcome src = Ok v ∧
         outcome (restore_table o k v cols) = Ok a ∧
         r !! k = Some (VArr a).

(** A row whose columns [cols] are looked up, one after the other, in the
    vector [m]. *)
Fixpoint renumber_row (m : list Z) (cols : list nat) (r : list Z)
  : option (list Z) :=
  match cols with
  | [] => Some r
  | c :: cols' =>
      id ← r !! c;
      n ← norm_index (length m) id;
      new ← m !! n;
      renumber_row m cols' (<[c := new]> r)
  end.

(** The row positions an index vector denotes in a table of [n] rows. *)
Definition positions (n : nat) (idx : list Z) : list nat :=
  omap (norm_index n) idx.

(** ** Cases on which the restore returns *)



(** The index vector [idx] lies within a sequence of [n] elements. *)
Definition in_range (n : nat) (idx : list Z) : Prop :=
  Forall (λ i, is_Some (norm_index n i)) idx.






(** ** The monad *)

Lemma outcome_bind {A B} (m : M A) (f : A → M B) :
  outcome (m ≫= f) =
  match outcome m with Ok a => outcome (f a) | Raise e => Raise e end.
Proof.
  destruct m as [l [a|e]]; unfold mbind, M_bind, bind; simpl; [|done].
  by destruct (f a).
Qed.

Lemma logged_bind_raise {A B} (m : M A) (f : A → M B) e :
  outcome m = Raise e → m ≫= f = Run (logged m) (Raise e).
Proof. destruct m as [l [a|e']]; simpl; intros; by simplify_eq. Qed.

Lemma ret_bind {A B} (a : A) (f : A → M B) : ret a ≫= f = f a.
Proof. unfold mbind, M_bind, bind, ret. by destruct (f a). Qed.

Lemma bind_raises {A B} (m : M A) (f : A → M B) :
  (∀ a, ∃ e, outcome (f a) = Raise e) → ∃ e, outcome (m ≫= f) = Raise e.
Proof.
  intros Hf. rewrite outcome_bind. destruct (outcome m) as [a|e]; eauto.
Qed.

Lemma outcome_of_option {A} e (x : option A) a :
  outcome (of_option e x) = Ok a ↔ x = Some a.
Proof. destruct x; simpl; split; intros; by simplify_eq. Qed.

Lemma outcome_getitem d k x :
  outcome (getitem (VDict d) k) = Ok x ↔ d !! k = Some x.
Proof. apply outcome_of_option. Qed.

Lemma getitem_ok_dict v k x :
  outcome (getitem v k) = Ok x → ∃ d, v = VDict d ∧ d !! k = Some x.
Proof.
  destruct v; simpl; try done. intros H. eexists; split; [done|].
  by apply outcome_of_option in H.
Qed.

Lemma outcome_ret {A} (a b : A) : outcome (ret a) = Ok b → a = b.
Proof. by intros [=]. Qed.

(** Splits a hypothesis [outcome (x ← m; k) = Ok b] into the runs of [m]
    and of [k]. *)
Ltac minv1 H :=
  lazymatch type of H with
  | outcome (_ ≫= _) = Ok _ =>
      let a := fresh "a" in
      let E := fresh "E" in
      rewrite outcome_bind in H;
      match type of H with
      | match outcome ?m with _ => _ end = _ =>
          destruct (outcome m) as [a|] eqn:E; [|discriminate H]
      end
  | outcome (ret _) = Ok _ => apply outcome_ret in H
  | outcome (let '(_, _) := ?p in _) = Ok _ => destruct p
  | outcome (match ?p with (_, _) => _ end) = Ok _ => destruct p
  end.

Ltac minv H := repeat minv1 H.

(** ** The steps of the whole-case restore *)

Lemma dict_has_true d k : dict_has d k = true ↔ is_Some (d !! k).
Proof. unfold dict_has. by rewrite bool_decide_eq_true. Qed.

Lemma dict_has_false d k : dict_has d k = false ↔ d !! k = None.
Proof.
  unfold dict_has. rewrite bool_decide_eq_false. by rewrite eq_None_not_Some.
Qed.

Lemma save_int_ok k mpc o o' :
  outcome (save_int k mpc o) = Ok o' →
  ∃ x i, mpc !! k = Some x ∧ o !! "int" = Some (VDict i) ∧
         o' = <["int" := VDict (<[k := x]> i)]> o.
Proof.
  unfold save_int. intros H. minv H.
  apply outcome_getitem in E, E0.
  destruct a0; simpl in E1; try done. simplify_eq. eauto.
Qed.

Lemma load_ext_ok k mpc o mpc' :
  outcome (load_ext k mpc o) = Ok mpc' →
  ∃ e x, o !! "ext" = Some (VDict e) ∧ e !! k = Some x ∧ mpc' = <[k := x]> mpc.
Proof.
  unfold load_ext. simpl. intros H. minv H. minv E.
  apply outcome_getitem in E0.
  apply getitem_ok_dict in E1 as (e & -> & He).
  simplify_eq. eauto.
Qed.

Lemma swap_optional_ok k mpc o mpc' o' :
  outcome (swap_optional k mpc o) = Ok (mpc', o') →
  if dict_has mpc k
  then ∃ x i e y, mpc !! k = Some x ∧ o !! "int" = Some (VDict i) ∧
         o !! "ext" = Some (VDict e) ∧ e !! k = Some y ∧
         o' = <["int" := VDict (<[k := x]> i)]> o ∧ mpc' = <[k := y]> mpc
  else mpc !! k = None ∧ mpc' = mpc ∧ o' = o.
Proof.
  unfold swap_optional. destruct (dict_has mpc k) eqn:Hk; intros H.
  - minv H. apply save_int_ok in E as (x & i & ? & ? & ->).
    apply load_ext_ok in E0 as (e & y & He & ? & ->).
    rewrite lookup_insert_ne in He by done. simplify_eq. naive_solver.
  - apply dict_has_false in Hk. simpl in H. by simplify_eq.
Qed.

Lemma dict_has_insert_ne (d : gmap string value) k k' v :
  k' ≠ k → dict_has (<[k' := v]> d) k = dict_has d k.
Proof. intros. unfold dict_has. by rewrite lookup_insert_ne. Qed.

Lemma swap_optional_inv mpc o i e S k m oo m' oo' :
  o !! "ext" = Some (VDict e) →
  swap_state mpc o i e S m oo →
  k ∉ S →
  outcome (swap_optional k m oo) = Ok (m', oo') →
  swap_state mpc o i e (if dict_has mpc k then k :: S else S) m' oo'.
Proof.
  intros He (ic & -> & Hic & Hm & HS) Hk H.
  apply swap_optional_ok in H.
  assert (m !! k = mpc !! k) as Hmk.
  { rewrite Hm. by rewrite bool_decide_eq_false_2. }
  assert (dict_has m k = dict_has mpc k) as Hd.
  { unfold dict_has. by rewrite Hmk. }
  rewrite Hd in H. destruct (dict_has mpc k) eqn:Hhas.
  - destruct H as (x & i' & e' & y & Hx & Hi' & He' & Hy & -> & ->).
    rewrite lookup_insert_eq in Hi'. rewrite lookup_insert_ne in He' by done.
    simplify_eq. eexists. split_and!.
    + by rewrite insert_insert_eq.
    + intros k'. destruct (decide (k' = k)) as [->|Hne].
      * rewrite lookup_insert_eq, bool_decide_eq_true_2 by set_solver.
        by rewrite <- Hmk.
      * rewrite lookup_insert_ne, Hic by done.
        assert (bool_decide (k' ∈ k :: S) = bool_decide (k' ∈ S)) as ->; [|done].
        apply bool_decide_ext. set_solver.
    + intros k'. destruct (decide (k' = k)) as [->|Hne].
      * by rewrite lookup_insert_eq, bool_decide_eq_true_2 by set_solver.
      * rewrite lookup_insert_ne, Hm by done.
        assert (bool_decide (k' ∈ k :: S) = bool_decide (k' ∈ S)) as ->; [|done].
        apply bool_decide_ext. set_solver.
    + intros k' [->|Hin]%elem_of_cons; [|by apply HS].
      rewrite <- Hmk, Hx, Hy. eauto.
  - destruct H as (_ & -> & ->). by exists ic.
Qed.

Lemma swap_state_proper mpc o i e S S' m oo :
  (∀ k, k ∈ S ↔ k ∈ S') →
  swap_state mpc o i e S m oo → swap_state mpc o i e S' m oo.
Proof.
  intros HS (ic & -> & Hic & Hm & Hs). exists ic.
  assert (∀ k, bool_decide (k ∈ S') = bool_decide (k ∈ S)) as Hb.
  { intros k. apply bool_decide_ext. by rewrite HS. }
  split_and!; [done|..].
  - intros k. by rewrite Hb.
  - intros k. by rewrite Hb.
  - intros k Hk. apply Hs. by apply HS.
Qed.

Lemma swap_tables_ok mpc o mpc1 o1 :
  outcome (swap_tables mpc o) = Ok (mpc1, o1) →
  ∃ i e, o !! "int" = Some (VDict i) ∧ o !! "ext" = Some (VDict e) ∧
    swap_state mpc o i e (swapped_keys mpc) mpc1 o1.
Proof.
  unfold swap_tables. intros H. minv H.
  apply save_int_ok in E as (x1 & i & Hx1 & Hi & ->).
  apply save_int_ok in E0 as (x2 & ? & Hx2 & ? & ->).
  apply save_int_ok in E1 as (x3 & ? & Hx3 & ? & ->).
  apply load_ext_ok in E2 as (e & y1 & He & Hy1 & ->).
  apply load_ext_ok in E3 as (? & y2 & ? & Hy2 & ->).
  apply load_ext_ok in E4 as (? & y3 & ? & Hy3 & ->).
  simplify_map_eq. rewrite !insert_insert_eq in E5.
  exists i, e. split_and!; [done..|].
  assert (swap_state mpc o i e ["gen"; "branch"; "bus"]
            (<["gen":=y3]> (<["branch":=y2]> (<["bus":=y1]> mpc)))
            (<["int":=VDict (<["gen":=x3]> (<["branch":=x2]> (<["bus":=x1]> i)))]> o))
    as H0.
  { clear E5 E6 E7 H. eexists. split_and!; [done|..].
    - intros k. rewrite !lookup_insert. repeat case_decide; subst;
        first [by rewrite bool_decide_eq_true_2 by (rewrite !elem_of_cons; tauto)
              |by rewrite bool_decide_eq_false_2
                 by (rewrite !elem_of_cons, elem_of_nil; naive_solver)].
    - intros k. rewrite !lookup_insert. repeat case_decide; subst;
        first [by rewrite bool_decide_eq_true_2 by (rewrite !elem_of_cons; tauto)
              |by rewrite bool_decide_eq_false_2
                 by (rewrite !elem_of_cons, elem_of_nil; naive_solver)].
    - intros k Hk. rewrite !elem_of_cons, elem_of_nil in Hk.
      destruct Hk as [->|[->|[->|[]]]]; eauto. }
  unfold swapped_keys. rewrite !filter_cons, filter_nil.
  destruct (dict_has mpc "gencost") eqn:F1, (dict_has mpc "areas") eqn:F2,
    (dict_has mpc "A") eqn:F3, (dict_has mpc "N") eqn:F4.
  all: eapply swap_optional_inv in E5;
    [|done..|by apply (bool_decide_unpack _)]; rewrite F1 in E5.
  all: eapply swap_optional_inv in E6;
    [|done..|by apply (bool_decide_unpack _)]; rewrite F2 in E6.
  all: eapply swap_optional_inv in E7;
    [|done..|by apply (bool_decide_unpack _)]; rewrite F3 in E7.
  all: eapply swap_optional_inv in H;
    [|done..|by apply (bool_decide_unpack _)]; rewrite F4 in H.
  all: repeat case_decide; try done.
  all: eapply swap_state_proper; [|exact H].
  all: intros k; rewrite !elem_of_app, !elem_of_cons, !elem_of_nil; tauto.
Qed.

Lemma getpath_agree (o o' : gmap string value) k ks :
  o' !! k = o !! k →
  getpath (VDict o') (k :: ks) = getpath (VDict o) (k :: ks).
Proof. simpl. by intros ->. Qed.

Lemma store_table_ok k a mpc o mpc' o' :
  store_table k a mpc o = (mpc', o') →
  mpc' = <[k := VArr a]> mpc ∧ ∀ k', k' ≠ "ext" → o' !! k' = o !! k'.
Proof.
  unfold store_table. intros [= <- <-]. split; [done|].
  intros k' Hk'. repeat case_match; try done. by rewrite lookup_insert_ne.
Qed.

Lemma arr_target_ok t a : outcome (arr_target t) = Ok a → t = VArr a.
Proof. destruct t; simpl; intros; by simplify_eq. Qed.

Lemma assign_rows_ok k rhs mpc o mpc' o' :
  outcome (assign_rows k rhs mpc o) = Ok (mpc', o') →
  scattered mpc o k rhs mpc' ∧
  (∀ k', k' ≠ k → mpc' !! k' = mpc !! k') ∧
  (∀ k', k' ≠ "ext" → o' !! k' = o !! k').
Proof.
  unfold assign_rows. intros H. minv H.
  apply outcome_getitem in E0.
  apply store_table_ok in H as [-> Ho].
  split_and!; [|by intros; rewrite lookup_insert_ne|done].
  exists a0, a1, a, a2. by rewrite lookup_insert_eq.
Qed.

Lemma fix_ids_ok k col mpc o mpc' o' :
  outcome (fix_ids k col mpc o) = Ok (mpc', o') →
  renumbered mpc o k [col] mpc' ∧
  (∀ k', k' ≠ k → mpc' !! k' = mpc !! k') ∧
  (∀ k', k' ≠ "ext" → o' !! k' = o !! k').
Proof.
  unfold fix_ids. intros H. minv H.
  apply outcome_getitem in E0. apply arr_target_ok in E2 as ->.
  apply store_table_ok in H as [-> Ho].
  split_and!; [|by intros; rewrite lookup_insert_ne|done].
  exists a, a1, a2, a3. rewrite lookup_insert_eq. split_and!; try done.
  simpl. rewrite outcome_bind, E3. done.
Qed.

Lemma gen_unpermuted_agree (o o' : gmap string value) :
  (∀ k, k ≠ "ext" → o' !! k = o !! k) → gen_unpermuted o' = gen_unpermuted o.
Proof.
  intros Ho. unfold gen_unpermuted, unpermute.
  by rewrite (getpath_agree o o' "int"), (getpath_agree o o' "gen") by by apply Ho.
Qed.

Lemma scattered_frame m1 o1 ma oa mb m2 k rhs rhs' :
  scattered ma oa k rhs' mb →
  ma !! k = m1 !! k → oa !! k = o1 !! k → rhs' = rhs → m2 !! k = mb !! k →
  scattered m1 o1 k rhs m2.
Proof.
  intros (t & on & src & a & Ht & Hon & Hsrc & Ha & Hb) Hm Ho -> H2.
  exists t, on, src, a. rewrite <- Hm, H2. split_and!; try done.
  by rewrite <- (getpath_agree o1 oa).
Qed.

Lemma renumbered_frame m1 o1 ma oa mb m2 k cols :
  renumbered ma oa k cols mb →
  ma !! k = m1 !! k → oa !! k = o1 !! k → oa !! "bus" = o1 !! "bus" →
  m2 !! k = mb !! k →
  renumbered m1 o1 k cols m2.
Proof.
  intros (i2e & on & a & a' & Hi & Hon & Ha & Hf & Hb) Hm Ho Hbus H2.
  exists i2e, on, a, a'. rewrite <- Hm, H2. split_and!; try done.
  - by rewrite <- (getpath_agree o1 oa).
  - by rewrite <- (getpath_agree o1 oa).
Qed.

Lemma renumbered_app m1 o1 m2 o2 m3 k c1 c2 :
  renumbered m1 o1 k c1 m2 → renumbered m2 o2 k c2 m3 →
  o2 !! k = o1 !! k → o2 !! "bus" = o1 !! "bus" →
  renumbered m1 o1 k (c1 ++ c2) m3.
Proof.
  intros (i2e & on & a & a' & Hi & Hon & Ha & Hf & Hb)
         (i2e' & on' & b & b' & Hi' & Hon' & Ha' & Hf' & Hb') Ho Hbus.
  rewrite (getpath_agree o1 o2) in Hi', Hon' by done.
  rewrite Hi in Hi'. rewrite Hon in Hon'. rewrite Hb in Ha'.
  injection Hi' as <-. injection Hon' as <-. injection Ha' as <-.
  exists i2e, on, a, b'. split_and!; try done.
  clear -Hf Hf'. revert a Hf. induction c1 as [|c c1 IH]; simpl; intros a Hf.
  - by simplify_eq.
  - rewrite outcome_bind in Hf |- *. destruct (outcome (renumber_col _ _ _ _)); [|done].
    by apply IH.
Qed.

Lemma outcome_getpath2 (d d' : gmap string value) k1 k2 :
  d !! k1 = Some (VDict d') →
  outcome (getpath (VDict d) [k1; k2]) = outcome (getitem (VDict d') k2).
Proof.
  intros Hd. cbn [getpath]. rewrite outcome_bind. cbn [getitem]. rewrite Hd.
  cbn [of_option ret outcome]. rewrite outcome_bind. by destruct (outcome _).
Qed.

Lemma unpermute_agree (o o' : gmap string value) g :
  o' !! "gen" = o !! "gen" → unpermute o' g = unpermute o g.
Proof. intros Ho. unfold unpermute. by rewrite (getpath_agree o o' "gen"). Qed.

Lemma restored_intro mpc o i e S m1 o1 m2 o2 m3 r k rhs src cols :
  o !! "ext" = Some (VDict e) →
  swap_state mpc o i e S m1 o1 →
  k ∈ S → k ≠ "int" → k ≠ "ext" →
  scattered m1 o1 k rhs m2 →
  outcome rhs = outcome src →
  renumbered m2 o2 k cols m3 →
  (∀ k', k' ≠ "ext" → o2 !! k' = o1 !! k') →
  r !! k = m3 !! k →
  restored o k src cols r.
Proof.
  intros He (ic & -> & Hic & Hm & HS) Hk Hki Hke
    (t & on & v & a & Ht & Hon & Hv & Ha & Hb) Hrhs
    (i2e & on' & b & b' & Hi & Hon' & Hb' & Hf & Hr) Ho Hrk.
  rewrite (getpath_agree (<["int":=VDict ic]> o) o2) in Hi, Hon' by by apply Ho.
  rewrite (getpath_agree o (<["int":=VDict ic]> o)) in Hi, Hon, Hon'
    by by rewrite lookup_insert_ne.
  rewrite Hon in Hon'. injection Hon' as <-.
  rewrite Hb in Hb'. injection Hb' as <-.
  rewrite Hm, bool_decide_eq_true_2 in Ht by done.
  exists v, b'. split_and!; [by rewrite <- Hrhs| |by rewrite Hrk].
  unfold restore_table.
  rewrite outcome_bind, (outcome_getpath2 o e) by done.
  cbn [getitem]. rewrite Ht. cbn [of_option ret outcome].
  rewrite outcome_bind, Hon, outcome_bind, Ha, outcome_bind, Hi. done.
Qed.

Section Phases.

Variables BUS_I GEN_BUS F_BUS T_BUS PRICE_REF_BUS : nat.

Lemma update_data_ok m1 o1 m2 o2 :
  outcome (update_data m1 o1) = Ok (m2, o2) →
  (∀ k, k ≠ "ext" → o2 !! k = o1 !! k) ∧
  (∀ k, k ∉ ["bus"; "branch"; "gen"; "areas"] → m2 !! k = m1 !! k) ∧
  scattered m1 o1 "bus" (getpath (VDict o1) ["int"; "bus"]) m2 ∧
  scattered m1 o1 "branch" (getpath (VDict o1) ["int"; "branch"]) m2 ∧
  scattered m1 o1 "gen" (gen_unpermuted o1) m2 ∧
  (if dict_has m1 "areas"
   then scattered m1 o1 "areas" (getpath (VDict o1) ["int"; "areas"]) m2
   else m2 !! "areas" = None).
Proof.
  unfold update_data. intros H. minv H.
  apply assign_rows_ok in E as (S1 & M1 & O1).
  apply assign_rows_ok in E0 as (S2 & M2 & O2).
  apply assign_rows_ok in E1 as (S3 & M3 & O3).
  assert (dict_has g3 "areas" = dict_has m1 "areas") as Hd.
  { unfold dict_has. by rewrite M3, M2, M1. }
  rewrite Hd in H.
  assert (∀ k, k ≠ "ext" → g4 !! k = o1 !! k) as O4.
  { intros k Hk. by rewrite O3, O2, O1. }
  destruct (dict_has m1 "areas") eqn:Ha.
  - apply assign_rows_ok in H as (S4 & M4 & O5). split_and!.
    + intros k Hk. by rewrite O5, O4.
    + intros k Hk. rewrite !not_elem_of_cons in Hk.
      rewrite M4, M3, M2, M1; naive_solver.
    + eapply scattered_frame; [exact S1|done..|]. by rewrite M4, M3, M2.
    + eapply scattered_frame; [exact S2|by rewrite M1|by rewrite O1| |].
      * by rewrite (getpath_agree o1 g0) by by rewrite O1.
      * by rewrite M4, M3.
    + eapply scattered_frame; [exact S3|by rewrite M2, M1|by rewrite O2, O1| |].
      * apply gen_unpermuted_agree. intros. by rewrite O2, O1.
      * by rewrite M4.
    + eapply scattered_frame; [exact S4|by rewrite M3, M2, M1|by rewrite O4| |done].
      by rewrite (getpath_agree o1 g4) by by rewrite O4.
  - apply outcome_ret in H. simplify_eq. split_and!.
    + done.
    + intros k Hk. rewrite !not_elem_of_cons in Hk.
      rewrite M3, M2, M1; naive_solver.
    + eapply scattered_frame; [exact S1|done..|]. by rewrite M3, M2.
    + eapply scattered_frame; [exact S2|by rewrite M1|by rewrite O1| |].
      * by rewrite (getpath_agree o1 g0) by by rewrite O1.
      * by rewrite M3.
    + eapply scattered_frame; [exact S3|by rewrite M2, M1|by rewrite O2, O1| |done].
      apply gen_unpermuted_agree. intros. by rewrite O2, O1.
    + apply dict_has_false in Ha. by rewrite M3, M2, M1.
Qed.

Lemma revert_bus_numbers_ok m2 o2 m3 o3 :
  outcome (revert_bus_numbers BUS_I GEN_BUS F_BUS T_BUS PRICE_REF_BUS m2 o2)
    = Ok (m3, o3) →
  (∀ k, k ≠ "ext" → o3 !! k = o2 !! k) ∧
  (∀ k, k ∉ ["bus"; "branch"; "gen"; "areas"] → m3 !! k = m2 !! k) ∧
  renumbered m2 o2 "bus" [BUS_I] m3 ∧
  renumbered m2 o2 "branch" [F_BUS; T_BUS] m3 ∧
  renumbered m2 o2 "gen" [GEN_BUS] m3 ∧
  (if dict_has m2 "areas"
   then renumbered m2 o2 "areas" [PRICE_REF_BUS] m3
   else m3 !! "areas" = None).
Proof.
  unfold revert_bus_numbers. intros H. minv H.
  apply fix_ids_ok in E as (S1 & M1 & O1).
  apply fix_ids_ok in E0 as (S2 & M2 & O2).
  apply fix_ids_ok in E1 as (S2' & M2' & O2').
  apply fix_ids_ok in E2 as (S3 & M3 & O3).
  assert (renumbered g g0 "branch" [F_BUS; T_BUS] g3) as S22.
  { by apply (renumbered_app g g0 g1 g2 g3 "branch" [F_BUS] [T_BUS]);
      [..|rewrite O2|rewrite O2]. }
  assert (dict_has g5 "areas" = dict_has m2 "areas") as Hd.
  { unfold dict_has. by rewrite M3, M2', M2, M1. }
  rewrite Hd in H.
  assert (∀ k, k ≠ "ext" → g6 !! k = o2 !! k) as O4.
  { intros k Hk. by rewrite O3, O2', O2, O1. }
  destruct (dict_has m2 "areas") eqn:Ha.
  - apply fix_ids_ok in H as (S4 & M4 & O5). split_and!.
    + intros k Hk. by rewrite O5, O4.
    + intros k Hk. rewrite !not_elem_of_cons in Hk.
      rewrite M4, M3, M2', M2, M1; naive_solver.
    + eapply renumbered_frame; [exact S1|done..|]. by rewrite M4, M3, M2', M2.
    + eapply renumbered_frame;
        [exact S22|by rewrite M1|by rewrite O1|by rewrite O1|].
      by rewrite M4, M3.
    + eapply renumbered_frame;
        [exact S3|by rewrite M2', M2, M1|by rewrite O2', O2, O1
        |by rewrite O2', O2, O1|].
      by rewrite M4.
    + eapply renumbered_frame;
        [exact S4|by rewrite M3, M2', M2, M1|by rewrite O4|by rewrite O4|done].
  - apply outcome_ret in H. simplify_eq. split_and!.
    + done.
    + intros k Hk. rewrite !not_elem_of_cons in Hk.
      rewrite M3, M2', M2, M1; naive_solver.
    + eapply renumbered_frame; [exact S1|done..|]. by rewrite M3, M2', M2.
    + eapply renumbered_frame;
        [exact S22|by rewrite M1|by rewrite O1|by rewrite O1|].
      by rewrite M3.
    + eapply renumbered_frame;
        [exact S3|by rewrite M2', M2, M1|by rewrite O2', O2, O1
        |by rewrite O2', O2, O1|done].
    + apply dict_has_false in Ha. by rewrite M3, M2', M2, M1.
Qed.

Lemma restore_body_ok mpc o r :
  outcome (restore_body BUS_I GEN_BUS F_BUS T_BUS PRICE_REF_BUS mpc o) = Ok r →
  ∃ i e ic ord,
    o !! "int" = Some (VDict i) ∧ o !! "ext" = Some (VDict e) ∧
    r !! "order" = Some (VDict ord) ∧
    ord !! "state" = Some (VStr "e") ∧ ord !! "ext" = None ∧
    ord !! "int" = Some (VDict ic) ∧
    (∀ k, k ∉ ["state"; "ext"; "int"] → ord !! k = o !! k) ∧
    (∀ k, ic !! k =
          if bool_decide (k ∈ swapped_keys mpc) then mpc !! k else i !! k) ∧
    (∀ k, k ∉ ["bus"; "branch"; "gen"; "areas"; "order"] →
          r !! k =
          if bool_decide (k ∈ swapped_keys mpc) then e !! k else mpc !! k) ∧
    (∀ k, k ∈ swapped_keys mpc → is_Some (mpc !! k) ∧ is_Some (e !! k)) ∧
    restored o "bus" (getitem (VDict mpc) "bus") [BUS_I] r ∧
    restored o "branch" (getitem (VDict mpc) "branch") [F_BUS; T_BUS] r ∧
    restored o "gen" (g ← getitem (VDict mpc) "gen"; unpermute o g) [GEN_BUS] r ∧
    (if dict_has mpc "areas"
     then restored o "areas" (getitem (VDict mpc) "areas") [PRICE_REF_BUS] r
     else r !! "areas" = None).
Proof.
  unfold restore_body. intros H. minv H.
  apply swap_tables_ok in E as (i & e & Hi & He & Hsw).
  apply update_data_ok in E0 as (O2 & M2 & Sb & Sbr & Sg & Sa).
  apply revert_bus_numbers_ok in E1 as (O3 & M3 & Rb & Rbr & Rg & Ra).
  pose proof Hsw as (ic & -> & Hic & Hm & HS).
  set (ord := <["state":=VStr "e"]> (if dict_has g4 "ext" then delete "ext" g4 else g4)) in *.
  exists i, e, ic, ord. subst r.
  assert (∀ k, k ≠ "ext" → g4 !! k = <["int":=VDict ic]> o !! k) as O4.
  { intros k Hk. by rewrite O3, O2. }
  split_and!; try done.
  - by rewrite lookup_insert_eq.
  - unfold ord. by rewrite lookup_insert_eq.
  - unfold ord. rewrite lookup_insert_ne by done.
    destruct (dict_has g4 "ext") eqn:Hx; [by rewrite lookup_delete_eq|].
    by apply dict_has_false.
  - unfold ord. rewrite lookup_insert_ne by done.
    assert (g4 !! "int" = Some (VDict ic)) as Hint.
    { by rewrite O4, lookup_insert_eq. }
    destruct (dict_has g4 "ext"); [by rewrite lookup_delete_ne|done].
  - intros k Hk. rewrite !not_elem_of_cons in Hk. unfold ord.
    rewrite lookup_insert_ne by naive_solver.
    assert (g4 !! k = o !! k) as Hgk.
    { rewrite O4, lookup_insert_ne; naive_solver. }
    destruct (dict_has g4 "ext"); [rewrite lookup_delete_ne; naive_solver|done].
  - intros k Hk. rewrite !not_elem_of_cons in Hk.
    rewrite lookup_insert_ne by naive_solver.
    rewrite M3, M2, Hm; [done|rewrite !not_elem_of_cons; naive_solver..].
  - eapply (restored_intro mpc o i e); [done|exact Hsw|..|exact Sb| |exact Rb|exact O2|];
      [unfold swapped_keys; apply elem_of_app; left; by apply (bool_decide_unpack _)|done|done| |by rewrite lookup_insert_ne].
    rewrite (outcome_getpath2 _ ic) by by rewrite lookup_insert_eq.
    cbn [getitem]. rewrite Hic.
    by rewrite bool_decide_eq_true_2 by (unfold swapped_keys; apply elem_of_app; left; by apply (bool_decide_unpack _)).
  - eapply (restored_intro mpc o i e); [done|exact Hsw|..|exact Sbr| |exact Rbr|exact O2|];
      [unfold swapped_keys; apply elem_of_app; left; by apply (bool_decide_unpack _)|done|done| |by rewrite lookup_insert_ne].
    rewrite (outcome_getpath2 _ ic) by by rewrite lookup_insert_eq.
    cbn [getitem]. rewrite Hic.
    by rewrite bool_decide_eq_true_2 by (unfold swapped_keys; apply elem_of_app; left; by apply (bool_decide_unpack _)).
  - eapply (restored_intro mpc o i e); [done|exact Hsw|..|exact Sg| |exact Rg|exact O2|];
      [unfold swapped_keys; apply elem_of_app; left; by apply (bool_decide_unpack _)|done|done| |by rewrite lookup_insert_ne].
    unfold gen_unpermuted. rewrite !outcome_bind.
    rewrite (outcome_getpath2 _ ic) by by rewrite lookup_insert_eq.
    cbn [getitem]. rewrite Hic.
    rewrite bool_decide_eq_true_2 by (unfold swapped_keys; apply elem_of_app; left; by apply (bool_decide_unpack _)).
    destruct (mpc !! "gen"); cbn [of_option ret raise outcome]; [|done].
    by rewrite (unpermute_agree o) by by rewrite lookup_insert_ne.
  - assert (dict_has g "areas" = dict_has mpc "areas") as Hd1.
    { unfold dict_has. rewrite Hm.
      destruct (bool_decide ("areas" ∈ swapped_keys mpc)) eqn:Hin; [|done].
      apply bool_decide_eq_true in Hin.
      apply HS in Hin as [[? ->] [? ->]]. by rewrite !bool_decide_eq_true_2. }
    assert (dict_has g1 "areas" = dict_has g "areas") as Hd2.
    { destruct (dict_has g "areas") eqn:Hga.
      - destruct Sa as (? & ? & ? & ? & _ & _ & _ & _ & Hx).
        apply dict_has_true. by rewrite Hx.
      - by apply dict_has_false. }
    rewrite Hd2 in Ra. rewrite Hd1 in Sa, Ra.
    destruct (dict_has mpc "areas") eqn:Hma.
    + assert ("areas" ∈ swapped_keys mpc) as Hin.
      { unfold swapped_keys. apply elem_of_app. right.
        apply list_elem_of_filter. split; [done|].
        by apply (bool_decide_unpack _). }
      eapply (restored_intro mpc o i e); [done|exact Hsw|..|exact Sa| |exact Ra|exact O2|];
      [done|done|done| |by rewrite lookup_insert_ne].
      rewrite (outcome_getpath2 _ ic) by by rewrite lookup_insert_eq.
      cbn [getitem]. rewrite Hic. by rewrite bool_decide_eq_true_2.
    + by rewrite lookup_insert_ne.
Qed.

End Phases.

(** ** Index vectors and row writes *)

Lemma norm_index_lt n i m : norm_index n i = Some m → (m < n)%nat.
Proof. unfold norm_index. repeat case_decide; intros; simplify_eq; lia. Qed.

Lemma norm_index_nonneg n i :
  (0 ≤ i < Z.of_nat n)%Z → norm_index n i = Some (Z.to_nat i).
Proof. intros. unfold norm_index. by rewrite decide_True. Qed.

Lemma positions_cons n i idx m :
  norm_index n i = Some m → positions n (i :: idx) = m :: positions n idx.
Proof. unfold positions. simpl. by intros ->. Qed.

Lemma elem_of_positions n idx j i m :
  idx !! j = Some i → norm_index n i = Some m → m ∈ positions n idx.
Proof.
  intros Hj Hm. apply list_elem_of_omap. exists i. split; [|done].
  by eapply list_elem_of_lookup_2.
Qed.

Lemma mapM_ok {A B} (f : A → M B) l ys :
  outcome (mapM f l) = Ok ys → Forall2 (λ x y, outcome (f x) = Ok y) l ys.
Proof.
  revert ys. induction l as [|x l IH]; intros ys H; simpl in H.
  - apply outcome_ret in H as <-. constructor.
  - minv H. subst. constructor; auto.
Qed.

Lemma put_rows_ok l idx rs l' :
  outcome (put_rows l idx rs) = Ok l' → length rs = length idx →
  length l' = length l ∧
  (∀ n, n ∉ positions (length l) idx → l' !! n = l !! n) ∧
  (NoDup (positions (length l) idx) →
   ∀ j i r, idx !! j = Some i → rs !! j = Some r →
     ∃ n, norm_index (length l) i = Some n ∧ l' !! n = Some r).
Proof.
  revert l rs. induction idx as [|i idx IH]; intros l rs H Hlen.
  - destruct rs; [|done]. apply outcome_ret in H as <-.
    split_and!; [done|done|]. intros _ j i r Hj. by rewrite lookup_nil in Hj.
  - destruct rs as [|r rs]; [done|]. simpl in H. minv H.
    apply outcome_of_option in E. rename a into n.
    apply IH in H as (Hl & Hout & Hin); [|by simplify_eq/=].
    rewrite length_insert in Hl, Hout, Hin.
    rewrite (positions_cons _ _ _ _ E).
    split_and!; [done|..].
    + intros n' [Hne Hn']%not_elem_of_cons.
      by rewrite Hout, list_lookup_insert_ne.
    + intros [Hn Hnd]%NoDup_cons [|j] i' r' Hi' Hr'; simplify_eq/=.
      * exists n. split; [done|]. rewrite Hout by done.
        apply list_lookup_insert_eq. by eapply norm_index_lt.
      * by eapply Hin.
Qed.

Lemma put_at_ok l idx c xs l' :
  outcome (put_at l idx c xs) = Ok l' → length xs = length idx →
  length l' = length l ∧
  (∀ n, n ∉ positions (length l) idx → l' !! n = l !! n) ∧
  (NoDup (positions (length l) idx) →
   ∀ j i x, idx !! j = Some i → xs !! j = Some x →
     ∃ n r, norm_index (length l) i = Some n ∧ l !! n = Some r ∧
            l' !! n = Some (<[c := x]> r)).
Proof.
  revert l xs. induction idx as [|i idx IH]; intros l xs H Hlen.
  - destruct xs; [|done]. apply outcome_ret in H as <-.
    split_and!; [done|done|]. intros _ j i r Hj. by rewrite lookup_nil in Hj.
  - destruct xs as [|x xs]; [done|]. simpl in H. minv H.
    apply outcome_of_option in E, E0. rename a into n. rename a0 into r.
    apply IH in H as (Hl & Hout & Hin); [|by simplify_eq/=].
    rewrite length_insert in Hl, Hout, Hin.
    rewrite (positions_cons _ _ _ _ E).
    split_and!; [done|..].
    + intros n' [Hne Hn']%not_elem_of_cons.
      by rewrite Hout, list_lookup_insert_ne.
    + intros [Hn Hnd]%NoDup_cons [|j] i' x' Hi' Hx'; simplify_eq/=.
      * exists n, r. split_and!; [done..|]. rewrite Hout by done.
        apply list_lookup_insert_eq. by eapply norm_index_lt.
      * destruct (Hin Hnd j i' x' Hi' Hx') as (n' & r' & Hn' & Hr' & Hl').
        exists n', r'. split_and!; [done| |done].
        rewrite list_lookup_insert_ne in Hr'; [done|].
        intros ->. apply Hn. by eapply elem_of_positions.
Qed.

Lemma broadcast_length m c b rs :
  outcome (broadcast m c b) = Ok rs → length rs = m.
Proof.
  unfold broadcast. intros H. minv H.
  destruct (decide (length a = m)) as [<-|]; [by apply outcome_ret in H as <-|].
  destruct a as [|r [|]]; try done. apply outcome_ret in H as <-.
  by rewrite length_replicate.
Qed.

Lemma broadcast_same m c b :
  ncols b = c → length (rows b) = m → broadcast m c b = ret (rows b).
Proof.
  intros Hc Hm. unfold broadcast. rewrite decide_True by done.
  rewrite ret_bind. by rewrite decide_True.
Qed.

Lemma broadcast_vec_same m x : length x = m → broadcast_vec m x = ret x.
Proof. intros. unfold broadcast_vec. by rewrite decide_True. Qed.

Lemma np_set_rows_ok a idx b a' :
  outcome (np_set_rows a idx b) = Ok a' →
  ncols a' = ncols a ∧ length (rows a') = length (rows a) ∧
  (∀ n, n ∉ positions (length (rows a)) idx → rows a' !! n = rows a !! n) ∧
  (ncols b = ncols a → length (rows b) = length idx →
   NoDup (positions (length (rows a)) idx) →
   ∀ j i r, idx !! j = Some i → rows b !! j = Some r →
     ∃ n, norm_index (length (rows a)) i = Some n ∧ rows a' !! n = Some r).
Proof.
  unfold np_set_rows. intros H. minv H. subst a'. simpl.
  pose proof (broadcast_length _ _ _ _ E) as Hlen.
  destruct (put_rows_ok _ _ _ _ E0 Hlen) as (Hl & Hout & Hin).
  split_and!; [done..|].
  intros Hc Hr. rewrite broadcast_same in E by done.
  apply outcome_ret in E as <-. auto.
Qed.

Lemma np_get_at_ok a idx c ids :
  outcome (np_get_at a idx c) = Ok ids →
  Forall2 (λ i id, ∃ n r, norm_index (length (rows a)) i = Some n ∧
                          rows a !! n = Some r ∧ r !! c = Some id) idx ids.
Proof.
  intros H%mapM_ok. eapply Forall2_impl; [exact H|].
  intros i id Hi. simpl in Hi. minv Hi.
  apply outcome_of_option in E, E0, Hi. eauto.
Qed.

Lemma np_take_ok v idx xs :
  outcome (np_take v idx) = Ok xs →
  Forall2 (λ i x, ∃ n, norm_index (length v) i = Some n ∧ v !! n = Some x) idx xs.
Proof.
  intros H%mapM_ok. eapply Forall2_impl; [exact H|].
  intros i x Hi. simpl in Hi. minv Hi.
  apply outcome_of_option in E, Hi. eauto.
Qed.

Lemma np_take_rows_ok a idx r :
  outcome (np_take_rows a idx) = Ok r →
  ncols r = ncols a ∧
  Forall2 (λ i x, ∃ n, norm_index (length (rows a)) i = Some n ∧
                       rows a !! n = Some x) idx (rows r).
Proof.
  unfold np_take_rows. intros H. minv H. subst r. split; [done|]. simpl.
  apply mapM_ok in E. eapply Forall2_impl; [exact E|].
  intros i x Hi. simpl in Hi. minv Hi.
  apply outcome_of_option in E0, Hi. eauto.
Qed.

Lemma np_set_at_ok a idx c xs a' :
  outcome (np_set_at a idx c xs) = Ok a' → length xs = length idx →
  ncols a' = ncols a ∧ length (rows a') = length (rows a) ∧
  (∀ n, n ∉ positions (length (rows a)) idx → rows a' !! n = rows a !! n) ∧
  (NoDup (positions (length (rows a)) idx) →
   ∀ j i x, idx !! j = Some i → xs !! j = Some x →
     ∃ n r, norm_index (length (rows a)) i = Some n ∧ rows a !! n = Some r ∧
            rows a' !! n = Some (<[c := x]> r)).
Proof.
  unfold np_set_at. intros H Hlen. rewrite broadcast_vec_same in H by done.
  rewrite ret_bind in H. minv H. subst a'. simpl.
  destruct (put_at_ok _ _ _ _ _ E Hlen) as (Hl & Hout & Hin). auto.
Qed.

Lemma renumber_col_ok (m idx : list Z) c a a' :
  outcome (renumber_col (VVec m) (VVec idx) c a) = Ok a' →
  ncols a' = ncols a ∧ length (rows a') = length (rows a) ∧
  (∀ n, n ∉ positions (length (rows a)) idx → rows a' !! n = rows a !! n) ∧
  (NoDup (positions (length (rows a)) idx) →
   ∀ j i, idx !! j = Some i →
     ∃ n r id bn new,
       norm_index (length (rows a)) i = Some n ∧ rows a !! n = Some r ∧
       r !! c = Some id ∧
       norm_index (length m) id = Some bn ∧ m !! bn = Some new ∧
       rows a' !! n = Some (<[c := new]> r)).
Proof.
  unfold renumber_col. intros H. minv H.
  apply (outcome_ret idx) in E as <-. apply (outcome_ret m) in E1 as <-.
  apply np_get_at_ok in E0. apply np_take_ok in E2.
  rename E0 into E. rename E2 into E1.
  pose proof (Forall2_length _ _ _ E) as L1.
  pose proof (Forall2_length _ _ _ E1) as L2.
  apply np_set_at_ok in H as (Hc & Hl & Hout & Hin); [|congruence].
  split_and!; [done..|].
  intros Hnd j i Hi.
  destruct (Forall2_lookup_l _ _ _ _ _ E Hi) as (id & Hid & n & r & Hn & Hr & Hrc).
  destruct (Forall2_lookup_l _ _ _ _ _ E1 Hid) as (new & Hnew & bn & Hbn & Hm).
  destruct (Hin Hnd j i new Hi Hnew) as (n' & r' & Hn' & Hr' & Ha').
  simplify_eq. exists n, r, id, bn, new. by split_and!.
Qed.

Lemma renumber_cols_ok (m idx : list Z) cols a a' :
  outcome (foldM (renumber_col (VVec m) (VVec idx)) cols a) = Ok a' →
  ncols a' = ncols a ∧ length (rows a') = length (rows a) ∧
  (∀ n, n ∉ positions (length (rows a)) idx → rows a' !! n = rows a !! n) ∧
  (NoDup (positions (length (rows a)) idx) →
   ∀ j i n, idx !! j = Some i → norm_index (length (rows a)) i = Some n →
     ∃ r r', rows a !! n = Some r ∧
             renumber_row m cols r = Some r' ∧ rows a' !! n = Some r').
Proof.
  revert a. induction cols as [|c cols IH]; intros a H; simpl in H.
  - apply outcome_ret in H as <-. split_and!; [done..|].
    intros Hnd j i n Hi Hn.
    destruct (lookup_lt_is_Some_2 (rows a) n) as [r Hr];
      [by eapply norm_index_lt|].
    by exists r, r.
  - minv H. destruct (renumber_col_ok _ _ _ _ _ E) as (Hc & Hl & Hout & Hin).
    destruct (IH _ H) as (Hc' & Hl' & Hout' & Hin').
    rewrite Hl in Hl', Hout', Hin'. rewrite Hc in Hc'.
    split_and!; [done..| |].
    + intros n Hn. by rewrite Hout', Hout.
    + intros Hnd j i n Hi Hn.
      destruct (Hin Hnd j i Hi) as (n' & r & id & bn & new & ? & Hr & Hid & Hbn & Hm & Ha0).
      destruct (Hin' Hnd j i n Hi Hn) as (r1 & r' & Hr1 & Hrr & Ha').
      simplify_eq. exists r, r'. split_and!; [done| |done].
      simpl. rewrite Hid. simpl. rewrite Hbn. simpl. by rewrite Hm.
Qed.

Lemma restore_table_rows (o : gmap string value) k (ext src : ndarray)
    (on busmap : list Z) cols a :
  outcome (getpath (VDict o) ["ext"; k]) = Ok (VArr ext) →
  outcome (getpath (VDict o) [k; "status"; "on"]) = Ok (VVec on) →
  outcome (getpath (VDict o) ["bus"; "i2e"]) = Ok (VVec busmap) →
  outcome (restore_table o k (VArr src) cols) = Ok a →
  ncols a = ncols ext ∧ length (rows a) = length (rows ext) ∧
  (∀ n, n ∉ positions (length (rows ext)) on → rows a !! n = rows ext !! n) ∧
  (ncols src = ncols ext → length (rows src) = length on →
   NoDup (positions (length (rows ext)) on) →
   ∀ j i, on !! j = Some i →
     ∃ n r r', norm_index (length (rows ext)) i = Some n ∧
               rows src !! j = Some r ∧
               renumber_row busmap cols r = Some r' ∧
               rows a !! n = Some r').
Proof.
  intros He Hon Hb H. unfold restore_table in H.
  rewrite outcome_bind, He, outcome_bind, Hon in H. minv H.
  injection Hb as ->.
  unfold scatter_table in E. minv E.
  apply (outcome_ret ext) in E1 as <-. apply (outcome_ret on) in E2 as <-.
  apply (outcome_ret src) in E3 as <-.
  destruct (np_set_rows_ok _ _ _ _ E) as (Hc & Hl & Hout & Hin).
  destruct (renumber_cols_ok _ _ _ _ _ H) as (Hc' & Hl' & Hout' & Hin').
  rewrite Hl in Hl', Hout', Hin'. rewrite Hc in Hc'.
  split_and!; [done..| |].
  - intros n Hn. by rewrite Hout', Hout.
  - intros Hcs Hls Hnd j i Hi.
    destruct (lookup_lt_is_Some_2 (rows src) j) as [r Hr].
    { rewrite Hls. by eapply lookup_lt_Some. }
    destruct (Hin Hcs Hls Hnd j i r Hi Hr) as (n & Hn & Ha0).
    destruct (Hin' Hnd j i n Hi Hn) as (r0 & r' & Hr0 & Hrr & Ha').
    simplify_eq. by exists n, r, r'.
Qed.

(** ** The entry points *)

Section Properties.

Variables BUS_I GEN_BUS F_BUS T_BUS PRICE_REF_BUS : nat.
Variable get_reorder : value → value → value → M value.
Variable set_reorder : value → value → value → value → M value.
Variable run_userfcn :
  value → string → gmap string value → gmap string value →
  M (gmap string value * gmap string value).

Local Abbreviation int2ext' :=
  (int2ext BUS_I GEN_BUS F_BUS T_BUS PRICE_REF_BUS
           get_reorder set_reorder run_userfcn).
Local Abbreviation whole_case' :=
  (whole_case BUS_I GEN_BUS F_BUS T_BUS PRICE_REF_BUS run_userfcn).
Local Abbreviation restore_body' :=
  (restore_body BUS_I GEN_BUS F_BUS T_BUS PRICE_REF_BUS).

Lemma whole_case_internal mpc o :
  mpc !! "order" = Some (VDict o) → o !! "state" = Some (VStr "i") →
  whole_case' mpc =
  ('(m, o') ← userfcn_stage run_userfcn mpc o; restore_body' m o').
Proof.
  intros Ho Hs. unfold whole_case, dict_has.
  rewrite bool_decide_eq_true_2 by by rewrite Ho.
  rewrite ret_bind. cbn [getitem]. rewrite Ho. cbn [of_option].
  rewrite ret_bind. cbn [getitem]. rewrite Hs. cbn [of_option].
  by rewrite ret_bind.
Qed.

Lemma whole_case_not_internal mpc o st :
  mpc !! "order" = Some (VDict o) → o !! "state" = Some st →
  is_internal st = false →
  whole_case' mpc = Run [msg_already_external] (Ok mpc).
Proof.
  intros Ho Hs Hst. unfold whole_case, dict_has.
  rewrite bool_decide_eq_true_2 by by rewrite Ho.
  rewrite ret_bind. cbn [getitem]. rewrite Ho. cbn [of_option].
  rewrite ret_bind. cbn [getitem]. rewrite Hs. cbn [of_option].
  rewrite ret_bind. by rewrite Hst.
Qed.

Lemma int2ext_restore_inv depth mpc o g b a x :
  mpc !! "order" = Some (VDict o) → o !! "state" = Some (VStr "i") →
  outcome (int2ext' (S depth) (VDict mpc) VNone g b a) = Ok x →
  ∃ mpc1 o1 r,
    outcome (userfcn_stage run_userfcn mpc o) = Ok (mpc1, o1) ∧
    outcome (restore_body' mpc1 o1) = Ok r ∧
    x = (VDict r, g, b, a).
Proof.
  intros Ho Hs H. cbn [int2ext] in H.
  rewrite (whole_case_internal mpc o) in H by done. minv H.
  minv E. subst. eauto 10.
Qed.

(** C5.  A whole-case restore that succeeds on a case whose order record is
    in internal state returns a case whose order record is in external
    state and no longer holds the [ext] snapshot. *)
Theorem restore_sets_external_state depth mpc o g b a r g' b' a' :
  mpc !! "order" = Some (VDict o) → o !! "state" = Some (VStr "i") →
  outcome (int2ext BUS_I GEN_BUS F_BUS T_BUS PRICE_REF_BUS
      get_reorder set_reorder run_userfcn (S depth) (VDict mpc) VNone g b a) = Ok (r, g', b', a') →
  ∃ mpc' o', r = VDict mpc' ∧ mpc' !! "order" = Some (VDict o') ∧
             o' !! "state" = Some (VStr "e") ∧ o' !! "ext" = None.
Proof.
  intros Ho Hs H.
  destruct (int2ext_restore_inv _ _ _ _ _ _ _ Ho Hs H)
    as (mpc1 & o1 & r1 & _ & Hr & [= -> -> -> ->]).
  apply restore_body_ok in Hr
    as (i & e & ic & ord & _ & _ & Hord & Hst & Hext & _).
  by exists r1, ord.
Qed.

(** C10.  In a whole-case restore of a case that holds a [gencost] table
    when the tables are exchanged, the returned [gencost] is the snapshot
    [order.ext.gencost] as it was, and the table the case held is kept in
    [order.int.gencost]. *)
Theorem restore_gencost_is_ext_snapshot depth mpc o mpc1 o1 gc g b a r g' b' a' :
  mpc !! "order" = Some (VDict o) → o !! "state" = Some (VStr "i") →
  outcome (userfcn_stage run_userfcn mpc o) = Ok (mpc1, o1) →
  mpc1 !! "gencost" = Some gc →
  outcome (int2ext BUS_I GEN_BUS F_BUS T_BUS PRICE_REF_BUS
      get_reorder set_reorder run_userfcn (S depth) (VDict mpc) VNone g b a) = Ok (r, g', b', a') →
  ∃ mpc' o' e ic snap,
    r = VDict mpc' ∧
    o1 !! "ext" = Some (VDict e) ∧ e !! "gencost" = Some snap ∧
    mpc' !! "gencost" = Some snap ∧
    mpc' !! "order" = Some (VDict o') ∧
    o' !! "int" = Some (VDict ic) ∧ ic !! "gencost" = Some gc.
Proof.
  intros Ho Hs Hu Hgc H.
  destruct (int2ext_restore_inv _ _ _ _ _ _ _ Ho Hs H)
    as (mpc2 & o2 & r1 & Hu' & Hr & [= -> -> -> ->]).
  rewrite Hu in Hu'. injection Hu' as <- <-.
  apply restore_body_ok in Hr
    as (i & e & ic & ord & _ & He & Hord & _ & _ & Hint & _ & Hic & Hk & HS & _).
  assert ("gencost" ∈ swapped_keys mpc1) as Hin.
  { unfold swapped_keys. apply elem_of_app. right.
    apply list_elem_of_filter. split; [|by apply (bool_decide_unpack _)].
    apply dict_has_true. by rewrite Hgc. }
  destruct (HS _ Hin) as [_ [snap Hsnap]].
  exists r1, ord, e, ic, snap. split_and!; try done.
  - rewrite Hk by by apply (bool_decide_unpack _).
    by rewrite bool_decide_eq_true_2.
  - by rewrite Hic, bool_decide_eq_true_2.
Qed.

(** C4.  On a case whose order record is already in external state the
    whole-case form logs the already-external message and returns the case
    as it is; so does a second call on the result of a successful
    restore. *)
Theorem restore_already_external depth mpc o g b a :
  mpc !! "order" = Some (VDict o) →
  (o !! "state" = Some (VStr "e") →
   int2ext BUS_I GEN_BUS F_BUS T_BUS PRICE_REF_BUS
      get_reorder set_reorder run_userfcn (S depth) (VDict mpc) VNone g b a
   = Run [msg_already_external] (Ok (VDict mpc, g, b, a))) ∧
  (o !! "state" = Some (VStr "i") →
   ∀ r g' b' a',
     outcome (int2ext BUS_I GEN_BUS F_BUS T_BUS PRICE_REF_BUS
      get_reorder set_reorder run_userfcn (S depth) (VDict mpc) VNone g b a) = Ok (r, g', b', a') →
     int2ext BUS_I GEN_BUS F_BUS T_BUS PRICE_REF_BUS
      get_reorder set_reorder run_userfcn (S depth) r VNone g' b' a'
     = Run [msg_already_external] (Ok (r, g', b', a'))).
Proof.
  intros Ho. split.
  - intros Hs. cbn [int2ext].
    by rewrite (whole_case_not_internal mpc o (VStr "e")).
  - intros Hs r g' b' a' H.
    destruct (int2ext_restore_inv _ _ _ _ _ _ _ Ho Hs H)
      as (mpc1 & o1 & r1 & _ & Hr & [= -> -> -> ->]).
    apply restore_body_ok in Hr
      as (i & e & ic & ord & _ & _ & Hord & Hst & _).
    cbn [int2ext]. by rewrite (whole_case_not_internal r1 ord (VStr "e")).
Qed.

Lemma renumber_row_single m c r r' :
  renumber_row m [c] r = Some r' →
  ∃ id n new, r !! c = Some id ∧ norm_index (length m) id = Some n ∧
              m !! n = Some new ∧ r' = <[c := new]> r.
Proof.
  simpl. intros H.
  destruct (r !! c) as [id|] eqn:Hid; [|done]. simpl in H.
  destruct (norm_index (length m) id) as [n|] eqn:Hn; [|done]. simpl in H.
  destruct (m !! n) as [new|] eqn:Hnew; [|done]. simpl in H.
  injection H as <-. by exists id, n, new.
Qed.

(** C2.  In a whole-case restore, the row of the returned [gen] table at
    position [gen.status.on[j]] is the row [gen.i2e[j]] of the internal
    [gen] table, with its generator-bus column looked up in [bus.i2e] and
    every other column as it was. *)
Theorem restore_gen_unpermutes depth mpc o mpc1 o1 g b a r g' b' a'
    (src ext : ndarray) (on p busmap : list Z) :
  mpc !! "order" = Some (VDict o) → o !! "state" = Some (VStr "i") →
  outcome (userfcn_stage run_userfcn mpc o) = Ok (mpc1, o1) →
  mpc1 !! "gen" = Some (VArr src) →
  outcome (getpath (VDict o1) ["ext"; "gen"]) = Ok (VArr ext) →
  outcome (getpath (VDict o1) ["gen"; "status"; "on"]) = Ok (VVec on) →
  outcome (getpath (VDict o1) ["gen"; "i2e"]) = Ok (VVec p) →
  outcome (getpath (VDict o1) ["bus"; "i2e"]) = Ok (VVec busmap) →
  ncols src = ncols ext → length p = length on →
  NoDup (positions (length (rows ext)) on) →
  outcome (int2ext BUS_I GEN_BUS F_BUS T_BUS PRICE_REF_BUS
      get_reorder set_reorder run_userfcn (S depth) (VDict mpc) VNone g b a) = Ok (VDict r, g', b', a') →
  ∃ res, r !! "gen" = Some (VArr res) ∧
    length (rows res) = length (rows ext) ∧
    ∀ j i q, on !! j = Some i → p !! j = Some q →
      ∃ n m row id bn new,
        norm_index (length (rows ext)) i = Some n ∧
        norm_index (length (rows src)) q = Some m ∧
        rows src !! m = Some row ∧
        row !! GEN_BUS = Some id ∧
        norm_index (length busmap) id = Some bn ∧ busmap !! bn = Some new ∧
        rows res !! n = Some (<[GEN_BUS := new]> row).
Proof.
  intros Ho Hs Hu Hsrc Hext Hon Hp Hbus Hc Hlen Hnd H.
  destruct (int2ext_restore_inv _ _ _ _ _ _ _ Ho Hs H)
    as (mpc2 & o2 & r1 & Hu' & Hr & [= -> -> -> ->]).
  rewrite Hu in Hu'. injection Hu' as <- <-.
  apply restore_body_ok in Hr as (i & e & ic & ord & _ & _ & _ & _ & _ & _ & _
    & _ & _ & _ & _ & _ & (v & res & Hv & Hres & Hg) & _).
  rewrite outcome_bind in Hv. cbn [getitem] in Hv. rewrite Hsrc in Hv.
  cbn [of_option ret outcome] in Hv. unfold unpermute in Hv.
  rewrite outcome_bind, Hp in Hv. minv Hv.
  apply (outcome_ret src) in E as <-. apply (outcome_ret p) in E0 as <-.
  subst v. apply np_take_rows_ok in E1 as [Hca Hrows].
  destruct (restore_table_rows _ _ _ _ _ _ _ _ Hext Hon Hbus Hres)
    as (_ & Hl & _ & Hin).
  exists res. split_and!; [done|done|].
  intros j i' q Hj Hq.
  destruct (Hin) with (j := j) (i := i') as (n & row & row' & Hn & Hrow & Hrr & Hres');
    [congruence|by rewrite <- (Forall2_length _ _ _ Hrows)|done..|].
  destruct (Forall2_lookup_l _ _ _ _ _ Hrows Hq) as (row2 & Hrow2 & m & Hm & Hsm).
  apply renumber_row_single in Hrr as (id & bn & new & Hid & Hbn & Hnew & ->).
  simplify_eq. exists n, m, row, id, bn, new. by split_and!.
Qed.

(** C1.  The scenario: [bus.status.on = [0, 2]], [bus.i2e = [10, 30]], a
    three-row external snapshot with ids 10, 20, 30 and a two-row internal
    bus table with ids 0, 1.  The restored bus table has three rows with ids
    10, 20, 30; rows 0 and 2 are the internal rows with the id rewritten
    and row 1 is the row of the snapshot. *)
Theorem restore_bus_scenario depth mpc o g b a r g' b' a' nc
    (x0 x1 x2 r0 r1 : list Z) :
  mpc !! "order" = Some (VDict o) → o !! "state" = Some (VStr "i") →
  mpc !! "userfcn" = None →
  outcome (getpath (VDict o) ["bus"; "status"; "on"]) = Ok (VVec [0; 2]%Z) →
  outcome (getpath (VDict o) ["bus"; "i2e"]) = Ok (VVec [10; 30]%Z) →
  outcome (getpath (VDict o) ["ext"; "bus"]) = Ok (VArr (NdArray nc [x0; x1; x2])) →
  x0 !! BUS_I = Some 10%Z → x1 !! BUS_I = Some 20%Z → x2 !! BUS_I = Some 30%Z →
  mpc !! "bus" = Some (VArr (NdArray nc [r0; r1])) →
  r0 !! BUS_I = Some 0%Z → r1 !! BUS_I = Some 1%Z →
  outcome (int2ext BUS_I GEN_BUS F_BUS T_BUS PRICE_REF_BUS
      get_reorder set_reorder run_userfcn (S depth) (VDict mpc) VNone g b a) = Ok (VDict r, g', b', a') →
  r !! "bus" = Some (VArr (NdArray nc
                 [<[BUS_I := 10%Z]> r0; x1; <[BUS_I := 30%Z]> r1])) ∧
  (λ row : list Z, row !! BUS_I)
    <$> [<[BUS_I := 10%Z]> r0; x1; <[BUS_I := 30%Z]> r1]
  = [Some 10%Z; Some 20%Z; Some 30%Z].
Proof.
  intros Ho Hs Hnu Hon Hbus Hext Hx0 Hx1 Hx2 Hsrc Hr0 Hr1 H.
  split.
  2:{ simpl. rewrite !list_lookup_insert_eq by by eapply lookup_lt_Some.
      by rewrite Hx1. }
  destruct (int2ext_restore_inv _ _ _ _ _ _ _ Ho Hs H)
    as (mpc2 & o2 & r1' & Hu' & Hr & [= -> -> -> ->]).
  unfold userfcn_stage, dict_has in Hu'.
  rewrite bool_decide_eq_false_2 in Hu' by (rewrite Hnu; by intros [? ?]).
  apply outcome_ret in Hu'. injection Hu' as <- <-.
  apply restore_body_ok in Hr as (i & e & ic & ord & _ & _ & _ & _ & _ & _ & _
    & _ & _ & _ & (v & res & Hv & Hres & Hg) & _).
  cbn [getitem] in Hv. rewrite Hsrc in Hv. apply outcome_ret in Hv as <-.
  destruct (restore_table_rows _ _ _ _ _ _ _ _ Hext Hon Hbus Hres)
    as (Hc & Hl & Hout & Hin).
  cbn [rows ncols length] in Hc, Hl, Hout, Hin.
  assert (positions 3 [0; 2]%Z = [0; 2]%nat) as Hpos by done.
  rewrite Hpos in Hout, Hin.
  specialize (Hin eq_refl eq_refl).
  assert (NoDup [0; 2]%nat) as Hnd by by apply (bool_decide_unpack _).
  destruct (Hin Hnd 0%nat 0%Z eq_refl) as (n0 & q0 & q0' & Hn0 & Hq0 & Hrr0 & Ha0).
  destruct (Hin Hnd 1%nat 2%Z eq_refl) as (n2 & q2 & q2' & Hn2 & Hq2 & Hrr2 & Ha2).
  apply renumber_row_single in Hrr0 as (id0 & bn0 & new0 & Hid0 & Hbn0 & Hnew0 & ->).
  apply renumber_row_single in Hrr2 as (id2 & bn2 & new2 & Hid2 & Hbn2 & Hnew2 & ->).
  simpl in Hq0, Hq2. simplify_eq.
  assert (rows res !! 1%nat = Some x1) as Ha1.
  { by rewrite Hout by by apply (bool_decide_unpack _). }
  vm_compute in Hn0, Hn2, Hbn0, Hbn2. simplify_eq. simpl in Hnew0, Hnew2.
  simplify_eq. rewrite Hg. do 2 f_equal.
  destruct res as [c rs]. cbn [rows ncols] in *. f_equal.
  destruct rs as [|a0 [|a1 [|a2 [|]]]]; simplify_eq/=. done.
Qed.

(** C3.  On a case without the [order] key the whole-case form logs the
    missing-order message and then fails with [KeyError] on
    [mpc["order"]]; it does not return the case. *)
Theorem restore_missing_order_raises depth mpc g b a :
  mpc !! "order" = None →
  int2ext BUS_I GEN_BUS F_BUS T_BUS PRICE_REF_BUS
      get_reorder set_reorder run_userfcn (S depth) (VDict mpc) VNone g b a
  = Run [msg_no_order] (Raise (KeyError "order")).
Proof.
  intros Ho. cbn [int2ext]. unfold whole_case, dict_has.
  rewrite bool_decide_eq_false_2 by (rewrite Ho; by intros [? ?]).
  cbn [getitem]. by rewrite Ho.
Qed.

Lemma raises_bind {A B} (m : M A) (f : A → M B) :
  (∀ a, outcome m = Ok a → ∃ e, outcome (f a) = Raise e) →
  ∃ e, outcome (m ≫= f) = Raise e.
Proof.
  intros Hf. rewrite outcome_bind. destruct (outcome m) as [a|e]; eauto.
Qed.

(** C6.  The named-field form with a single field name never returns: it
    reads the literal key ["field"], not the named field, and then asks the
    order dict for an attribute [ext]. *)
Theorem field_conversion_never_returns depth mpc F ordering dim areas :
  ∃ e, outcome (int2ext BUS_I GEN_BUS F_BUS T_BUS PRICE_REF_BUS
      get_reorder set_reorder run_userfcn (S depth) (VDict mpc) (VStr F) ordering dim areas)
       = Raise e.
Proof.
  cbn [int2ext].
  apply raises_bind. intros x _.
  apply raises_bind. intros ord _.
  apply raises_bind. intros i (d & -> & _)%getitem_ok_dict.
  apply raises_bind. intros i' _.
  apply raises_bind. intros ord' <-%outcome_ret.
  apply raises_bind. intros val _.
  apply raises_bind. intros ord Hord.
  apply outcome_getitem in Hord. rewrite lookup_insert_eq in Hord.
  injection Hord as <-.
  apply raises_bind. intros ext [=].
Qed.

(** C7.  The raw-value form with a single ordering tag reads the order
    entry under the literal key ["ordering"], not the entry of the tag: on
    an order record without that key it fails with [KeyError], whatever the
    tag and whatever the entry of the tag holds. *)
Theorem single_tag_reads_literal_ordering depth mpc o tag v oldval dim :
  mpc !! "order" = Some (VDict o) → o !! "ordering" = None →
  outcome (int2ext BUS_I GEN_BUS F_BUS T_BUS PRICE_REF_BUS
      get_reorder set_reorder run_userfcn (S depth) (VDict mpc) (VArr v) oldval (VStr tag) dim)
  = Raise (KeyError "ordering").
Proof.
  intros Ho Hn. cbn [int2ext getitem]. rewrite Ho. cbn [of_option].
  rewrite ret_bind. cbn [getpath getitem]. rewrite Hn. cbn [of_option].
  destruct (String.eqb tag "gen"); by rewrite ?ret_bind.
Qed.

Lemma py_range_add_raises bi ni (f : value → M (value * value)) :
  ∃ e, outcome (ri ← py_range ni; idx ← py_add (VInt bi) ri; f idx) = Raise e.
Proof.
  apply raises_bind. intros ri Hri.
  destruct ni; try done. apply outcome_ret in Hri as <-.
  eexists. reflexivity.
Qed.

Lemma ordering_block_raises recur mpc o val oldval ordering dim k be bi :
  ∃ e, outcome (ordering_block get_reorder recur mpc o val oldval ordering dim
                  k (VInt be, VInt bi)) = Raise e.
Proof.
  unfold ordering_block.
  do 8 (apply raises_bind; intros ? _).
  apply py_range_add_raises.
Qed.

(** C8.  The raw-value form with a sequence of tags never returns a value:
    with no tag it fails on the unbound name [size], otherwise the first
    block fails (at the latest on [bi + range(ni)]); no remainder is ever
    appended. *)
Theorem composite_conversion_never_returns depth mpc v oldval tags dim :
  ∃ e, outcome (int2ext BUS_I GEN_BUS F_BUS T_BUS PRICE_REF_BUS
      get_reorder set_reorder run_userfcn (S depth) (VDict mpc) (VArr v) oldval (VList tags) dim)
       = Raise e.
Proof.
  cbn [int2ext]. apply raises_bind. intros o _.
  apply raises_bind. intros n <-%outcome_ret.
  destruct tags as [|t tags]; [eexists; reflexivity|].
  cbn [length seq foldM]. apply raises_bind. intros s Hf. exfalso.
  rewrite outcome_bind in Hf.
  destruct (ordering_block_raises (int2ext' depth) mpc o (VArr v) oldval
              (VList (t :: tags)) (default_dim dim) 0 0 0) as [e He].
  by rewrite He in Hf.
Qed.

Lemma np_any_true ar :
  (∃ row z, row ∈ rows ar ∧ z ∈ row ∧ z ≠ 0%Z) → np_any (VArr ar) = ret true.
Proof.
  intros (row & z & Hrow & Hz & Hnz). cbn [np_any]. f_equal.
  apply existsb_exists. exists row. split; [by apply list_elem_of_In|].
  apply existsb_exists. exists z. split; [by apply list_elem_of_In|].
  apply negb_true_iff. by apply Z.eqb_neq.
Qed.

(** C9.  In the legacy form an [areas] table with a nonzero entry comes back
    as it was given: its [PRICE_REF_BUS] column is not remapped. *)
Theorem legacy_areas_left_unmapped depth (m : list Z) bus gen branch ar
    bus' gen' branch' areas' :
  (∃ row z, row ∈ rows ar ∧ z ∈ row ∧ z ≠ 0%Z) →
  outcome (int2ext BUS_I GEN_BUS F_BUS T_BUS PRICE_REF_BUS
      get_reorder set_reorder run_userfcn (S depth) (VVec m) bus gen branch (VArr ar))
  = Ok (bus', gen', branch', areas') →
  areas' = VArr ar.
Proof.
  intros Hnz H. cbn [int2ext] in H. minv H.
  injection H as <- <- <- <-.
  rewrite (np_any_true _ Hnz), ret_bind in E3. cbn [negb] in E3.
  destruct a2; by apply outcome_ret in E3 as <-.
Qed.

End Properties.

(** ** The properties on concrete cases *)

Lemma restore_bus_scenario_witness :
  outcome (int2ext_std 1 (VDict ex_case) VNone VNone VNone VNone)
  = Ok (VDict ex_restored, VNone, VNone, VNone) ∧
  ex_restored !! "bus" = Some (tbl 2 [[10; 111]; [20; 200]; [30; 333]]%Z) ∧
  (λ row : list Z, row !! 0%nat) <$> [[10; 111]; [20; 200]; [30; 333]]%Z
  = [Some 10; Some 20; Some 30]%Z.
Proof.
  split; [reflexivity|].
  apply (restore_bus_scenario 0 0 0 1 1 gather scatter no_userfcn 0
           ex_case ex_order VNone VNone VNone ex_restored VNone VNone VNone 2
           [10; 100]%Z [20; 200]%Z [30; 300]%Z [0; 111]%Z [1; 333]%Z);
    reflexivity.
Defined.

Lemma restore_gen_unpermutes_witness :
  ∃ res, ex_restored !! "gen" = Some (VArr res) ∧
    length (rows res) = 3%nat ∧
    ∀ j i q, [0; 2]%Z !! j = Some i → [1; 0]%Z !! j = Some q →
      ∃ n m row id bn new,
        norm_index 3 i = Some n ∧ norm_index 2 q = Some m ∧
        [[0; 71]; [1; 51]]%Z !! m = Some row ∧
        row !! 0%nat = Some id ∧
        norm_index 2 id = Some bn ∧ [10; 30]%Z !! bn = Some new ∧
        rows res !! n = Some (<[0%nat := new]> row).
Proof.
  apply (restore_gen_unpermutes 0 0 0 1 1 gather scatter no_userfcn 0
           ex_case ex_order ex_case ex_order VNone VNone VNone ex_restored
           VNone VNone VNone
           (NdArray 2 [[0; 71]; [1; 51]]%Z)
           (NdArray 2 [[30; 5]; [20; 6]; [10; 7]]%Z)
           [0; 2]%Z [1; 0]%Z [10; 30]%Z);
    try reflexivity.
  by apply (bool_decide_unpack _).
Defined.

Lemma restore_missing_order_raises_witness :
  int2ext_std 1 (VDict ∅) VNone VNone VNone VNone
  = Run [msg_no_order] (Raise (KeyError "order")).
Proof.
  apply (restore_missing_order_raises 0 0 0 1 1 gather scatter no_userfcn 0 ∅).
  reflexivity.
Defined.

Lemma restore_already_external_witness :
  int2ext_std 1 (VDict ex_restored) VNone VNone VNone VNone
  = Run [msg_already_external] (Ok (VDict ex_restored, VNone, VNone, VNone)) ∧
  (∀ r g' b' a',
     outcome (int2ext_std 1 (VDict ex_case) VNone VNone VNone VNone)
     = Ok (r, g', b', a') →
     int2ext_std 1 r VNone g' b' a'
     = Run [msg_already_external] (Ok (r, g', b', a'))).
Proof.
  split.
  - refine (proj1 (restore_already_external 0 0 0 1 1 gather scatter no_userfcn 0
             ex_restored _ VNone VNone VNone _) _); reflexivity.
  - refine (proj2 (restore_already_external 0 0 0 1 1 gather scatter no_userfcn 0
             ex_case ex_order VNone VNone VNone _) _); reflexivity.
Defined.

Lemma restore_sets_external_state_witness :
  ∃ mpc' o', VDict ex_restored = VDict mpc' ∧
             mpc' !! "order" = Some (VDict o') ∧
             o' !! "state" = Some (VStr "e") ∧ o' !! "ext" = None.
Proof.
  apply (restore_sets_external_state 0 0 0 1 1 gather scatter no_userfcn 0
           ex_case ex_order VNone VNone VNone (VDict ex_restored)
           VNone VNone VNone); reflexivity.
Defined.

Lemma restore_gencost_is_ext_snapshot_witness :
  ∃ mpc' o' e ic snap,
    VDict ex_restored = VDict mpc' ∧
    ex_order !! "ext" = Some (VDict e) ∧ e !! "gencost" = Some snap ∧
    mpc' !! "gencost" = Some snap ∧
    mpc' !! "order" = Some (VDict o') ∧
    o' !! "int" = Some (VDict ic) ∧
    ic !! "gencost" = Some (tbl 1 [[9]; [8]]%Z).
Proof.
  apply (restore_gencost_is_ext_snapshot 0 0 0 1 1 gather scatter no_userfcn 0
           ex_case ex_order ex_case ex_order (tbl 1 [[9]; [8]]%Z)
           VNone VNone VNone (VDict ex_restored) VNone VNone VNone);
    reflexivity.
Defined.

Lemma single_tag_reads_literal_ordering_witness :
  outcome (int2ext_std 1 (VDict ex_case) (tbl 1 [[1]; [2]]%Z)
             (tbl 1 [[7]; [8]; [9]]%Z) (VStr "gen") VNone)
  = Raise (KeyError "ordering").
Proof.
  apply (single_tag_reads_literal_ordering 0 0 0 1 1 gather scatter no_userfcn 0
           ex_case ex_order); reflexivity.
Defined.

Lemma legacy_areas_left_unmapped_witness :
  outcome (int2ext_std 1 (VVec [10; 30]%Z) (tbl 2 [[0; 111]; [1; 333]]%Z)
             (tbl 2 [[0; 71]; [1; 51]]%Z) (tbl 3 [[0; 1; 77]]%Z)
             (tbl 2 [[1; 1]]%Z))
  = Ok (tbl 2 [[10; 111]; [30; 333]]%Z, tbl 2 [[10; 71]; [30; 51]]%Z,
        tbl 3 [[10; 30; 77]]%Z, tbl 2 [[1; 1]]%Z) ∧
  tbl 2 [[1; 1]]%Z = VArr (NdArray 2 [[1; 1]]%Z).
Proof.
  split; [reflexivity|].
  apply (legacy_areas_left_unmapped 0 0 0 1 1 gather scatter no_userfcn 0
           [10; 30]%Z (tbl 2 [[0; 111]; [1; 333]]%Z)
           (tbl 2 [[0; 71]; [1; 51]]%Z) (tbl 3 [[0; 1; 77]]%Z)
           (NdArray 2 [[1; 1]]%Z)
           (tbl 2 [[10; 111]; [30; 333]]%Z) (tbl 2 [[10; 71]; [30; 51]]%Z)
           (tbl 3 [[10; 30; 77]]%Z)).
  - exists [1; 1]%Z, 1%Z. split_and!; [by left|by left|done].
  - reflexivity.
Defined.

(** ** More on the whole-case restore *)

Lemma renumber_col_inv i2e idx c a a' :
  outcome (renumber_col i2e (VVec idx) c a) = Ok a' → ∃ m, i2e = VVec m.
Proof.
  unfold renumber_col. intros H. minv H.
  destruct i2e; try done. eauto.
Qed.

Lemma renumber_cols_frame i2e idx cols a a' :
  outcome (foldM (renumber_col i2e (VVec idx)) cols a) = Ok a' →
  ncols a' = ncols a ∧ length (rows a') = length (rows a) ∧
  (∀ n, n ∉ positions (length (rows a)) idx → rows a' !! n = rows a !! n).
Proof.
  revert a. induction cols as [|c cols IH]; intros a H; simpl in H.
  - by apply outcome_ret in H as <-.
  - minv H. destruct (renumber_col_inv _ _ _ _ _ E) as [m ->].
    destruct (renumber_col_ok _ _ _ _ _ E) as (Hc & Hl & Hout & _).
    destruct (IH _ H) as (Hc' & Hl' & Hout').
    rewrite Hl in Hl', Hout'. rewrite Hc in Hc'.
    split_and!; [done..|]. intros n Hn. by rewrite Hout', Hout.
Qed.

Lemma restore_table_frame (o : gmap string value) k (ext : ndarray)
    (on : list Z) v cols a :
  outcome (getpath (VDict o) ["ext"; k]) = Ok (VArr ext) →
  outcome (getpath (VDict o) [k; "status"; "on"]) = Ok (VVec on) →
  outcome (restore_table o k v cols) = Ok a →
  ncols a = ncols ext ∧ length (rows a) = length (rows ext) ∧
  (∀ n, n ∉ positions (length (rows ext)) on → rows a !! n = rows ext !! n).
Proof.
  intros He Hon H. unfold restore_table in H.
  rewrite outcome_bind, He, outcome_bind, Hon in H. minv H.
  unfold scatter_table in E. minv E.
  apply (outcome_ret ext) in E1 as <-. apply (outcome_ret on) in E2 as <-.
  destruct (np_set_rows_ok _ _ _ _ E) as (Hc & Hl & Hout & _).
  destruct (renumber_cols_frame _ _ _ _ _ H) as (Hc' & Hl' & Hout').
  rewrite Hl in Hl', Hout'. rewrite Hc in Hc'.
  split_and!; [done..|]. intros n Hn. by rewrite Hout', Hout.
Qed.

Section WholeCase.

Variables BUS_I GEN_BUS F_BUS T_BUS PRICE_REF_BUS : nat.
Variable get_reorder : value → value → value → M value.
Variable set_reorder : value → value → value → value → M value.
Variable run_userfcn :
  value → string → gmap string value → gmap string value →
  M (gmap string value * gmap string value).

Local Abbreviation int2ext' :=
  (int2ext BUS_I GEN_BUS F_BUS T_BUS PRICE_REF_BUS
           get_reorder set_reorder run_userfcn).

(** The locals after the callbacks and the case a successful whole-case
    restore returns from them. *)
Lemma int2ext_restore_inv' depth mpc o mpc1 o1 g b a r g' b' a' :
  mpc !! "order" = Some (VDict o) → o !! "state" = Some (VStr "i") →
  outcome (userfcn_stage run_userfcn mpc o) = Ok (mpc1, o1) →
  outcome (int2ext' (S depth) (VDict mpc) VNone g b a) = Ok (r, g', b', a') →
  ∃ rc, r = VDict rc ∧
        outcome (restore_body BUS_I GEN_BUS F_BUS T_BUS PRICE_REF_BUS mpc1 o1)
        = Ok rc.
Proof.
  intros Ho Hs Hu H.
  destruct (int2ext_restore_inv _ _ _ _ _ _ _ _ _ _ _ _ _ _ _ Ho Hs H)
    as (mpc2 & o2 & r1 & Hu' & Hr & [= -> -> -> ->]).
  rewrite Hu in Hu'. injection Hu' as <- <-. eauto.
Qed.

(** The rows of a restored table that [status.on] does not list are the
    rows of the [ext] snapshot, and the table has the snapshot's shape. *)
Theorem restore_keeps_offline_rows depth mpc o mpc1 o1 g b a r g' b' a' k
    (ext : ndarray) (on : list Z) :
  mpc !! "order" = Some (VDict o) → o !! "state" = Some (VStr "i") →
  outcome (userfcn_stage run_userfcn mpc o) = Ok (mpc1, o1) →
  k ∈ ["bus"; "branch"; "gen"; "areas"] → is_Some (mpc1 !! k) →
  outcome (getpath (VDict o1) ["ext"; k]) = Ok (VArr ext) →
  outcome (getpath (VDict o1) [k; "status"; "on"]) = Ok (VVec on) →
  outcome (int2ext BUS_I GEN_BUS F_BUS T_BUS PRICE_REF_BUS
             get_reorder set_reorder run_userfcn
             (S depth) (VDict mpc) VNone g b a) = Ok (VDict r, g', b', a') →
  ∃ res, r !! k = Some (VArr res) ∧
         ncols res = ncols ext ∧ length (rows res) = length (rows ext) ∧
         ∀ n, n ∉ positions (length (rows ext)) on →
              rows res !! n = rows ext !! n.
Proof.
  intros Ho Hs Hu Hk Hsome Hext Hon H.
  destruct (int2ext_restore_inv' _ _ _ _ _ _ _ _ _ _ _ _ Ho Hs Hu H)
    as (rc & [= <-] & Hr).
  apply restore_body_ok in Hr as (i & e & ic & ord & _ & _ & _ & _ & _ & _ & _
    & _ & _ & _ & Rb & Rbr & Rg & Ra).
  apply dict_has_true in Hsome.
  assert (∃ src cols, restored o1 k src cols r) as (src & cols & v & res & _ & Hres & Hrk).
  { rewrite !elem_of_cons, elem_of_nil in Hk.
    destruct Hk as [->|[->|[->|[->|[]]]]]; eauto. rewrite Hsome in Ra. eauto. }
  exists res. split; [done|].
  by eapply restore_table_frame.
Qed.

(** The row of the restored [bus] ([areas]) table at position
    [status.on[j]] is row [j] of the internal table with its bus-id
    (reference-bus) column looked up in [bus.i2e]. *)
Theorem restore_online_rows depth mpc o mpc1 o1 g b a r g' b' a' k c
    (src ext : ndarray) (on busmap : list Z) :
  mpc !! "order" = Some (VDict o) → o !! "state" = Some (VStr "i") →
  outcome (userfcn_stage run_userfcn mpc o) = Ok (mpc1, o1) →
  (k, c) ∈ [("bus", BUS_I); ("areas", PRICE_REF_BUS)] →
  mpc1 !! k = Some (VArr src) →
  outcome (getpath (VDict o1) ["ext"; k]) = Ok (VArr ext) →
  outcome (getpath (VDict o1) [k; "status"; "on"]) = Ok (VVec on) →
  outcome (getpath (VDict o1) ["bus"; "i2e"]) = Ok (VVec busmap) →
  ncols src = ncols ext → length (rows src) = length on →
  NoDup (positions (length (rows ext)) on) →
  outcome (int2ext BUS_I GEN_BUS F_BUS T_BUS PRICE_REF_BUS
             get_reorder set_reorder run_userfcn
             (S depth) (VDict mpc) VNone g b a) = Ok (VDict r, g', b', a') →
  ∃ res, r !! k = Some (VArr res) ∧
    ∀ j i, on !! j = Some i →
      ∃ n row id bn new,
        norm_index (length (rows ext)) i = Some n ∧
        rows src !! j = Some row ∧
        row !! c = Some id ∧
        norm_index (length busmap) id = Some bn ∧ busmap !! bn = Some new ∧
        rows res !! n = Some (<[c := new]> row).
Proof.
  intros Ho Hs Hu Hk Hsrc Hext Hon Hbus Hc Hl Hnd H.
  destruct (int2ext_restore_inv' _ _ _ _ _ _ _ _ _ _ _ _ Ho Hs Hu H)
    as (rc & [= <-] & Hr).
  apply restore_body_ok in Hr as (i & e & ic & ord & _ & _ & _ & _ & _ & _ & _
    & _ & _ & _ & Rb & _ & _ & Ra).
  assert (restored o1 k (getitem (VDict mpc1) k) [c] r)
    as (v & res & Hv & Hres & Hrk).
  { rewrite !elem_of_cons, elem_of_nil in Hk.
    destruct Hk as [[= -> ->]|[[= -> ->]|[]]]; [done|].
    by rewrite (proj2 (dict_has_true mpc1 "areas")) in Ra by by rewrite Hsrc. }
  cbn [getitem] in Hv. rewrite Hsrc in Hv. apply outcome_ret in Hv as <-.
  destruct (restore_table_rows _ _ _ _ _ _ _ _ Hext Hon Hbus Hres)
    as (_ & _ & _ & Hin).
  exists res. split; [done|]. intros j i' Hj.
  destruct (Hin Hc Hl Hnd j i' Hj) as (n & row & row' & Hn & Hrow & Hrr & Hrn).
  apply renumber_row_single in Hrr as (id & bn & new & Hid & Hbn & Hnew & ->).
  exists n, row, id, bn, new. by split_and!.
Qed.

Lemma renumber_row_pair m c1 c2 r r' :
  c1 ≠ c2 →
  renumber_row m [c1; c2] r = Some r' →
  ∃ id1 n1 new1 id2 n2 new2,
    r !! c1 = Some id1 ∧ norm_index (length m) id1 = Some n1 ∧
    m !! n1 = Some new1 ∧
    r !! c2 = Some id2 ∧ norm_index (length m) id2 = Some n2 ∧
    m !! n2 = Some new2 ∧
    r' = <[c2 := new2]> (<[c1 := new1]> r).
Proof.
  intros Hne H. cbn [renumber_row] in H.
  destruct (r !! c1) as [id1|] eqn:Hid1; [|done]. cbn in H.
  destruct (norm_index (length m) id1) as [n1|] eqn:Hn1; [|done]. cbn in H.
  destruct (m !! n1) as [new1|] eqn:Hnew1; [|done]. cbn in H.
  rewrite list_lookup_insert_ne in H by done.
  destruct (r !! c2) as [id2|] eqn:Hid2; [|done]. cbn in H.
  destruct (norm_index (length m) id2) as [n2|] eqn:Hn2; [|done]. cbn in H.
  destruct (m !! n2) as [new2|] eqn:Hnew2; [|done]. cbn in H.
  injection H as <-. by exists id1, n1, new1, id2, n2, new2.
Qed.

(** The row of the restored [branch] table at position [status.on[j]] is
    row [j] of the internal table with both its from-bus and its to-bus
    column looked up in [bus.i2e]. *)
Theorem restore_branch_endpoints depth mpc o mpc1 o1 g b a r g' b' a'
    (src ext : ndarray) (on busmap : list Z) :
  F_BUS ≠ T_BUS →
  mpc !! "order" = Some (VDict o) → o !! "state" = Some (VStr "i") →
  outcome (userfcn_stage run_userfcn mpc o) = Ok (mpc1, o1) →
  mpc1 !! "branch" = Some (VArr src) →
  outcome (getpath (VDict o1) ["ext"; "branch"]) = Ok (VArr ext) →
  outcome (getpath (VDict o1) ["branch"; "status"; "on"]) = Ok (VVec on) →
  outcome (getpath (VDict o1) ["bus"; "i2e"]) = Ok (VVec busmap) →
  ncols src = ncols ext → length (rows src) = length on →
  NoDup (positions (length (rows ext)) on) →
  outcome (int2ext BUS_I GEN_BUS F_BUS T_BUS PRICE_REF_BUS
             get_reorder set_reorder run_userfcn
             (S depth) (VDict mpc) VNone g b a) = Ok (VDict r, g', b', a') →
  ∃ res, r !! "branch" = Some (VArr res) ∧
    ∀ j i, on !! j = Some i →
      ∃ n row f nf newf t nt newt,
        norm_index (length (rows ext)) i = Some n ∧
        rows src !! j = Some row ∧
        row !! F_BUS = Some f ∧
        norm_index (length busmap) f = Some nf ∧ busmap !! nf = Some newf ∧
        row !! T_BUS = Some t ∧
        norm_index (length busmap) t = Some nt ∧ busmap !! nt = Some newt ∧
        rows res !! n = Some (<[T_BUS := newt]> (<[F_BUS := newf]> row)).
Proof.
  intros Hne Ho Hs Hu Hsrc Hext Hon Hbus Hc Hl Hnd H.
  destruct (int2ext_restore_inv' _ _ _ _ _ _ _ _ _ _ _ _ Ho Hs Hu H)
    as (rc & [= <-] & Hr).
  apply restore_body_ok in Hr as (i & e & ic & ord & _ & _ & _ & _ & _ & _ & _
    & _ & _ & _ & _ & (v & res & Hv & Hres & Hrk) & _).
  cbn [getitem] in Hv. rewrite Hsrc in Hv. apply outcome_ret in Hv as <-.
  destruct (restore_table_rows _ _ _ _ _ _ _ _ Hext Hon Hbus Hres)
    as (_ & _ & _ & Hin).
  exists res. split; [done|]. intros j i' Hj.
  destruct (Hin Hc Hl Hnd j i' Hj) as (n & row & row' & Hn & Hrow & Hrr & Hrn).
  apply renumber_row_pair in Hrr
    as (f & nf & newf & t & nt & newt & ? & ? & ? & ? & ? & ? & ->); [|done].
  exists n, row, f, nf, newf, t, nt, newt. by split_and!.
Qed.

Lemma not_swapped mpc k :
  k ∉ ["bus"; "branch"; "gen"] →
  (k ∈ ["gencost"; "areas"; "A"; "N"] → mpc !! k = None) →
  bool_decide (k ∈ swapped_keys mpc) = false.
Proof.
  intros Hk Hopt. apply bool_decide_eq_false. unfold swapped_keys.
  intros [?|[Hd Hin]%list_elem_of_filter]%elem_of_app; [done|].
  apply dict_has_true in Hd. rewrite (Hopt Hin) in Hd. by destruct Hd.
Qed.

Lemma swapped_optional mpc k :
  k ∈ ["gencost"; "areas"; "A"; "N"] → is_Some (mpc !! k) →
  k ∈ swapped_keys mpc.
Proof.
  intros Hk Hs. unfold swapped_keys. apply elem_of_app. right.
  apply list_elem_of_filter. split; [by apply dict_has_true|done].
Qed.

(** A whole-case restore changes no entry of the case but the tables
    [bus], [branch], [gen], [gencost], [areas], [A], [N] and the order
    record; an optional table the case does not hold is not created from
    the snapshot. *)
Theorem restore_frame depth mpc o mpc1 o1 g b a r g' b' a' k :
  mpc !! "order" = Some (VDict o) → o !! "state" = Some (VStr "i") →
  outcome (userfcn_stage run_userfcn mpc o) = Ok (mpc1, o1) →
  outcome (int2ext BUS_I GEN_BUS F_BUS T_BUS PRICE_REF_BUS
             get_reorder set_reorder run_userfcn
             (S depth) (VDict mpc) VNone g b a) = Ok (VDict r, g', b', a') →
  (k ∉ ["bus"; "branch"; "gen"; "gencost"; "areas"; "A"; "N"; "order"] →
   r !! k = mpc1 !! k) ∧
  (k ∈ ["gencost"; "areas"; "A"; "N"] → mpc1 !! k = None → r !! k = None).
Proof.
  intros Ho Hs Hu H.
  destruct (int2ext_restore_inv' _ _ _ _ _ _ _ _ _ _ _ _ Ho Hs Hu H)
    as (rc & [= <-] & Hr).
  apply restore_body_ok in Hr as (i & e & ic & ord & _ & _ & _ & _ & _ & _ & _
    & _ & Hk & _ & _ & _ & _ & Ra).
  split.
  - intros Hn. rewrite !not_elem_of_cons in Hn.
    rewrite Hk by (rewrite !not_elem_of_cons; naive_solver).
    rewrite not_swapped; [done|rewrite !not_elem_of_cons; naive_solver|].
    rewrite !elem_of_cons, elem_of_nil. naive_solver.
  - intros Hin Hnone.
    destruct (decide (k = "areas")) as [->|Hna].
    + by rewrite (proj2 (dict_has_false mpc1 "areas")) in Ra.
    + assert ((k ∉ ["bus"; "branch"; "gen"]) ∧
              (k ∉ ["bus"; "branch"; "gen"; "areas"; "order"])) as [Hnb Hno].
      { rewrite !elem_of_cons, elem_of_nil in Hin.
        destruct Hin as [->|[->|[->|[->|[]]]]]; try done;
          split; by apply (bool_decide_unpack _). }
      rewrite Hk by done. by rewrite not_swapped, Hnone.
Qed.

(** The linear-constraint matrices [A] and [N], when the case holds them,
    come back as the snapshots [order.ext.A] and [order.ext.N]; the
    matrices the case held are kept in [order.int]. *)
Theorem restore_constraint_matrices depth mpc o mpc1 o1 x g b a r g' b' a' k :
  mpc !! "order" = Some (VDict o) → o !! "state" = Some (VStr "i") →
  outcome (userfcn_stage run_userfcn mpc o) = Ok (mpc1, o1) →
  k ∈ ["A"; "N"] → mpc1 !! k = Some x →
  outcome (int2ext BUS_I GEN_BUS F_BUS T_BUS PRICE_REF_BUS
             get_reorder set_reorder run_userfcn
             (S depth) (VDict mpc) VNone g b a) = Ok (VDict r, g', b', a') →
  ∃ e snap o' ic,
    o1 !! "ext" = Some (VDict e) ∧ e !! k = Some snap ∧ r !! k = Some snap ∧
    r !! "order" = Some (VDict o') ∧ o' !! "int" = Some (VDict ic) ∧
    ic !! k = Some x.
Proof.
  intros Ho Hs Hu Hin Hx H.
  destruct (int2ext_restore_inv' _ _ _ _ _ _ _ _ _ _ _ _ Ho Hs Hu H)
    as (rc & [= <-] & Hr).
  apply restore_body_ok in Hr as (i & e & ic & ord & _ & He & Hord & _ & _
    & Hint & _ & Hic & Hk & HS & _).
  assert (k ∈ swapped_keys mpc1) as Hsw.
  { apply swapped_optional; [|by rewrite Hx].
    rewrite !elem_of_cons, elem_of_nil in Hin.
    destruct Hin as [->|[->|[]]]; by apply (bool_decide_unpack _). }
  destruct (HS _ Hsw) as [_ [snap Hsnap]].
  exists e, snap, ord, ic. split_and!; try done.
  - rewrite Hk; [by rewrite bool_decide_eq_true_2|].
    rewrite !elem_of_cons, elem_of_nil in Hin.
    destruct Hin as [->|[->|[]]]; by apply (bool_decide_unpack _).
  - by rewrite Hic, bool_decide_eq_true_2.
Qed.

(** After a whole-case restore the order record keeps every entry but
    [state], [ext] and [int] (so the [status] and [i2e] data of each class
    stay in place), and [order.int] holds the internal [bus], [branch] and
    [gen] tables. *)
Theorem restore_order_record depth mpc o mpc1 o1 g b a r g' b' a' :
  mpc !! "order" = Some (VDict o) → o !! "state" = Some (VStr "i") →
  outcome (userfcn_stage run_userfcn mpc o) = Ok (mpc1, o1) →
  outcome (int2ext BUS_I GEN_BUS F_BUS T_BUS PRICE_REF_BUS
             get_reorder set_reorder run_userfcn
             (S depth) (VDict mpc) VNone g b a) = Ok (VDict r, g', b', a') →
  ∃ o' ic,
    r !! "order" = Some (VDict o') ∧
    (∀ k, k ∉ ["state"; "ext"; "int"] → o' !! k = o1 !! k) ∧
    o' !! "int" = Some (VDict ic) ∧
    (∀ k, k ∈ ["bus"; "branch"; "gen"] →
          is_Some (mpc1 !! k) ∧ ic !! k = mpc1 !! k).
Proof.
  intros Ho Hs Hu H.
  destruct (int2ext_restore_inv' _ _ _ _ _ _ _ _ _ _ _ _ Ho Hs Hu H)
    as (rc & [= <-] & Hr).
  apply restore_body_ok in Hr as (i & e & ic & ord & _ & _ & Hord & _ & _
    & Hint & Hoth & Hic & _ & HS & _).
  exists ord, ic. split_and!; try done.
  intros k Hk.
  assert (k ∈ swapped_keys mpc1) as Hsw.
  { unfold swapped_keys. apply elem_of_app. by left. }
  split; [by apply HS|]. by rewrite Hic, bool_decide_eq_true_2.
Qed.

End WholeCase.

(** ** Failures and the other forms *)

Lemma is_internal_false st : st ≠ VStr "i" → is_internal st = false.
Proof.
  intros Hst. destruct st; try done. simpl.
  apply String.eqb_neq. congruence.
Qed.

Lemma raise_bind {A B} e (f : A → M B) : raise e ≫= f = raise e.
Proof. done. Qed.

Lemma bind_cong_l {A B} (m1 m2 : M A) (f : A → M B) :
  m1 = m2 → m1 ≫= f = m2 ≫= f.
Proof. by intros ->. Qed.

Lemma bind_ext {A B} (m : M A) (f g : A → M B) :
  (∀ a, outcome m = Ok a → f a = g a) → m ≫= f = m ≫= g.
Proof.
  intros H. destruct m as [l [a|e]]; [|done].
  unfold mbind, M_bind, bind. by rewrite (H a).
Qed.

Lemma save_int_run k (mpc o : gmap string value) x i :
  mpc !! k = Some x → o !! "int" = Some (VDict i) →
  save_int k mpc o = ret (<["int" := VDict (<[k := x]> i)]> o).
Proof.
  intros Hx Hi. unfold save_int. cbn [getitem]. rewrite Hx, Hi.
  cbn [of_option]. rewrite !ret_bind. cbn [setitem]. by rewrite ret_bind.
Qed.


Lemma zip_with_renumber (m : list Z) c rows ids xs :
  Forall2 (λ (r : list Z) id, r !! c = Some id) rows ids →
  Forall2 (λ i x, ∃ n, norm_index (length m) i = Some n ∧ m !! n = Some x)
          ids xs →
  Forall2 (λ r r', renumber_row m [c] r = Some r')
          rows (zip_with (λ r v, <[c := v]> r) rows xs).
Proof.
  intros H1. revert xs. induction H1 as [|r id rows ids Hr _ IH]; intros xs H2.
  - constructor.
  - apply Forall2_cons_inv_l in H2 as (x & xs' & (n & Hn & Hx) & H2 & ->).
    simpl. constructor; [|by apply IH].
    rewrite Hr. simpl. rewrite Hn. simpl. by rewrite Hx.
Qed.

Lemma remap_col_ok (m : list Z) t c v :
  outcome (remap_col (VVec m) t c) = Ok v →
  ∃ a a', t = VArr a ∧ v = VArr a' ∧ ncols a' = ncols a ∧
          Forall2 (λ r r', renumber_row m [c] r = Some r') (rows a) (rows a').
Proof.
  unfold remap_col. intros H. minv H.
  apply arr_target_ok in E as ->. apply (outcome_ret m) in E1 as <-.
  unfold np_get_col in E0. case_decide; [|done]. apply mapM_ok in E0.
  apply np_take_ok in E2.
  unfold np_set_col in E3. rewrite decide_True in E3 by done.
  rewrite broadcast_vec_same in E3
    by by rewrite <- (Forall2_length _ _ _ E2), <- (Forall2_length _ _ _ E0).
  rewrite ret_bind in E3. apply outcome_ret in E3 as <-. subst v.
  eexists _, _. split_and!; [done..|]. cbn [rows].
  eapply zip_with_renumber; [|exact E2].
  eapply Forall2_impl; [exact E0|]. intros r id Hr.
  by apply outcome_of_option in Hr.
Qed.

Lemma renumber_row_app m c1 c2 r r1 r2 :
  renumber_row m c1 r = Some r1 → renumber_row m c2 r1 = Some r2 →
  renumber_row m (c1 ++ c2) r = Some r2.
Proof.
  revert r. induction c1 as [|c c1 IH]; intros r H1 H2; simpl in *.
  - by simplify_eq.
  - destruct (r !! c) as [id|]; [|done]. simpl in *.
    destruct (norm_index (length m) id) as [n|]; [|done]. simpl in *.
    destruct (m !! n) as [new|]; [|done]. simpl in *. by apply IH.
Qed.

Lemma mapM_raises {A B} (f : A → M B) l e x :
  (∀ y, y ∈ l → (∃ b, outcome (f y) = Ok b) ∨ outcome (f y) = Raise e) →
  x ∈ l → outcome (f x) = Raise e →
  outcome (mapM f l) = Raise e.
Proof.
  induction l as [|y l IH]; intros Hall Hx Hfx; [by apply elem_of_nil in Hx|].
  simpl. rewrite outcome_bind.
  destruct (Hall y) as [[b Hb]|Hb]; [by left| |by rewrite Hb].
  rewrite Hb. apply elem_of_cons in Hx as [->|Hx]; [congruence|].
  rewrite outcome_bind, IH; [done| |done..].
  intros z Hz. apply Hall. by right.
Qed.

Section OtherForms.

Variables BUS_I GEN_BUS F_BUS T_BUS PRICE_REF_BUS : nat.
Variable get_reorder : value → value → value → M value.
Variable set_reorder : value → value → value → value → M value.
Variable run_userfcn :
  value → string → gmap string value → gmap string value →
  M (gmap string value * gmap string value).

Local Abbreviation int2ext' :=
  (int2ext BUS_I GEN_BUS F_BUS T_BUS PRICE_REF_BUS
           get_reorder set_reorder run_userfcn).

(** Only the state ['i'] starts a restore: with any other value of
    [order.state] the case is reported as already external and returned as
    it is, and without the key [state] the call fails with [KeyError]. *)
Theorem restore_only_from_internal_state depth mpc o g b a :
  mpc !! "order" = Some (VDict o) →
  (∀ st, o !! "state" = Some st → st ≠ VStr "i" →
     int2ext BUS_I GEN_BUS F_BUS T_BUS PRICE_REF_BUS
       get_reorder set_reorder run_userfcn (S depth) (VDict mpc) VNone g b a
     = Run [msg_already_external] (Ok (VDict mpc, g, b, a))) ∧
  (o !! "state" = None →
     int2ext BUS_I GEN_BUS F_BUS T_BUS PRICE_REF_BUS
       get_reorder set_reorder run_userfcn (S depth) (VDict mpc) VNone g b a
     = Run [] (Raise (KeyError "state"))).
Proof.
  intros Ho. split.
  - intros st Hs Hst. cbn [int2ext].
    by rewrite (whole_case_not_internal _ _ _ _ _ _ mpc o st)
      by auto using is_internal_false.
  - intros Hs. cbn [int2ext]. unfold whole_case, dict_has.
    rewrite bool_decide_eq_true_2 by by rewrite Ho.
    rewrite ret_bind. cbn [getitem]. rewrite Ho. cbn [of_option].
    rewrite ret_bind. cbn [getitem]. by rewrite Hs.
Qed.

(** A restore needs the live [bus] table and the dicts [order.int] and
    [order.ext]: it fails with [KeyError] on the first that is missing. *)
Theorem restore_needs_bus_int_ext depth mpc o g b a :
  mpc !! "order" = Some (VDict o) → o !! "state" = Some (VStr "i") →
  mpc !! "userfcn" = None →
  (mpc !! "bus" = None →
   outcome (int2ext BUS_I GEN_BUS F_BUS T_BUS PRICE_REF_BUS
              get_reorder set_reorder run_userfcn
              (S depth) (VDict mpc) VNone g b a) = Raise (KeyError "bus")) ∧
  (is_Some (mpc !! "bus") → o !! "int" = None →
   outcome (int2ext BUS_I GEN_BUS F_BUS T_BUS PRICE_REF_BUS
              get_reorder set_reorder run_userfcn
              (S depth) (VDict mpc) VNone g b a) = Raise (KeyError "int")) ∧
  (∀ i, is_Some (mpc !! "bus") → is_Some (mpc !! "branch") →
        is_Some (mpc !! "gen") → o !! "int" = Some (VDict i) →
        o !! "ext" = None →
   outcome (int2ext BUS_I GEN_BUS F_BUS T_BUS PRICE_REF_BUS
              get_reorder set_reorder run_userfcn
              (S depth) (VDict mpc) VNone g b a) = Raise (KeyError "ext")).
Proof.
  intros Ho Hs Hu.
  assert (int2ext' (S depth) (VDict mpc) VNone g b a =
          (mpc' ← restore_body BUS_I GEN_BUS F_BUS T_BUS PRICE_REF_BUS mpc o;
           ret (VDict mpc', g, b, a))) as ->.
  { cbn [int2ext]. rewrite (whole_case_internal _ _ _ _ _ _ mpc o) by done.
    unfold userfcn_stage, dict_has.
    rewrite bool_decide_eq_false_2 by (rewrite Hu; by intros [? ?]).
    by rewrite ret_bind. }
  unfold restore_body, swap_tables. split_and!.
  - intros Hb. unfold save_int. cbn [getitem]. by rewrite Hb.
  - intros [x Hb] Hi. unfold save_int. cbn [getitem]. by rewrite Hb, Hi.
  - intros i [x1 H1] [x2 H2] [x3 H3] Hi He.
    rewrite (save_int_run "bus" mpc o x1 i), ret_bind by done.
    rewrite (save_int_run "branch" mpc _ x2 (<["bus":=x1]> i)), ret_bind
      by (done || by rewrite lookup_insert_eq).
    rewrite (save_int_run "gen" mpc _ x3 (<["branch":=x2]> (<["bus":=x1]> i))),
      ret_bind by (done || by rewrite lookup_insert_eq).
    unfold load_ext. cbn [getpath getitem].
    rewrite !lookup_insert_ne by done. by rewrite He.
Qed.

(** The named-field form with a list of names (a nested field) never
    returns; with a non-empty list it fails at once with [NameError] on the
    unbound name [s]. *)
Theorem nested_field_conversion_never_returns depth mpc names ordering dim areas :
  (∃ e, outcome (int2ext BUS_I GEN_BUS F_BUS T_BUS PRICE_REF_BUS
                   get_reorder set_reorder run_userfcn
                   (S depth) (VDict mpc) (VList names) ordering dim areas)
        = Raise e) ∧
  (names ≠ [] →
   int2ext BUS_I GEN_BUS F_BUS T_BUS PRICE_REF_BUS
     get_reorder set_reorder run_userfcn
     (S depth) (VDict mpc) (VList names) ordering dim areas
   = Run [] (Raise (NameError "s"))).
Proof.
  split.
  - cbn [int2ext]. apply raises_bind. intros n _.
    apply raises_bind. intros _ _.
    apply raises_bind. intros ord _.
    apply raises_bind. intros h _.
    apply raises_bind. intros _ _. by eexists.
  - intros Hne. destruct names as [|x names]; [by destruct Hne|]. reflexivity.
Qed.

(** The named-field form with a single name [F] looks at the key
    ["field"] whatever [F] is: it fails with [KeyError] when the case has
    no such key, and with [AttributeError] on [order.ext] when it has. *)
Theorem field_conversion_failures depth mpc F ordering dim areas :
  (mpc !! "field" = None →
   outcome (int2ext BUS_I GEN_BUS F_BUS T_BUS PRICE_REF_BUS
              get_reorder set_reorder run_userfcn
              (S depth) (VDict mpc) (VStr F) ordering dim areas)
   = Raise (KeyError "field")) ∧
  (∀ x o i, mpc !! "field" = Some x → mpc !! "order" = Some (VDict o) →
            o !! "int" = Some (VDict i) →
   outcome (int2ext BUS_I GEN_BUS F_BUS T_BUS PRICE_REF_BUS
              get_reorder set_reorder run_userfcn
              (S depth) (VDict mpc) (VStr F) ordering dim areas)
   = Raise (AttributeError "ext")).
Proof.
  split.
  - intros Hf. cbn [int2ext getitem]. by rewrite Hf.
  - intros x o i Hf Ho Hi. cbn [int2ext getitem]. rewrite Hf, Ho.
    cbn [of_option]. rewrite !ret_bind. cbn [getitem]. rewrite Hi.
    cbn [of_option]. rewrite !ret_bind. cbn [setitem]. rewrite !ret_bind.
    cbn [getitem]. rewrite (lookup_insert_ne _ "order" "field"), Hf by done.
    cbn [of_option]. rewrite ret_bind. rewrite lookup_insert_eq.
    cbn [of_option]. by rewrite ret_bind.
Qed.

(** The raw-value form with a sequence of tags: with the empty sequence it
    fails with [NameError] on [size]; with a non-empty one, even when the
    shapes of the first block are found in [order.ext.ordering] and
    [mpc.ordering], it fails with [TypeError] on [bi + range(ni)]. *)
Theorem composite_conversion_failures depth mpc o v oldval dim :
  mpc !! "order" = Some o →
  outcome (int2ext BUS_I GEN_BUS F_BUS T_BUS PRICE_REF_BUS
             get_reorder set_reorder run_userfcn
             (S depth) (VDict mpc) (VArr v) oldval (VList []) dim)
  = Raise (NameError "size") ∧
  (∀ t tags (ae am : ndarray) le lm,
     outcome (getpath o ["ext"; "ordering"]) = Ok (VList (VArr ae :: le)) →
     mpc !! "ordering" = Some (VList (VArr am :: lm)) →
     outcome (int2ext BUS_I GEN_BUS F_BUS T_BUS PRICE_REF_BUS
                get_reorder set_reorder run_userfcn
                (S depth) (VDict mpc) (VArr v) oldval (VList (t :: tags)) dim)
     = Raise TypeError).
Proof.
  intros Ho. split.
  - cbn [int2ext getitem]. by rewrite Ho.
  - intros t tags ae am le lm He Hm. cbn [int2ext getitem]. rewrite Ho.
    cbn [of_option]. rewrite ret_bind. cbn [py_len]. rewrite ret_bind.
    cbn [length seq foldM]. unfold ordering_block.
    rewrite !outcome_bind, He. cbn [getitem]. rewrite Hm. reflexivity.
Qed.

(** The raw-value form with a single tag, when the order record has an
    entry under the key ["ordering"]: the value is scattered at the
    positions of that entry whatever the tag is (after a gather through the
    entry's [i2e] for the tag ['gen']), the axis defaults to 1, and the
    result comes back with the other three arguments. *)
Theorem single_tag_conversion depth mpc o ent st on v oldval tag dim :
  mpc !! "order" = Some (VDict o) → o !! "ordering" = Some (VDict ent) →
  ent !! "status" = Some (VDict st) → st !! "on" = Some on →
  (tag ≠ "gen" →
   int2ext BUS_I GEN_BUS F_BUS T_BUS PRICE_REF_BUS
     get_reorder set_reorder run_userfcn
     (S depth) (VDict mpc) (VArr v) oldval (VStr tag) dim
   = (r ← set_reorder oldval (VArr v) on (default_dim dim);
      ret (r, oldval, VStr tag, dim))) ∧
  (∀ p, ent !! "i2e" = Some p →
   int2ext BUS_I GEN_BUS F_BUS T_BUS PRICE_REF_BUS
     get_reorder set_reorder run_userfcn
     (S depth) (VDict mpc) (VArr v) oldval (VStr "gen") dim
   = (x ← get_reorder (VArr v) p (default_dim dim);
      r ← set_reorder oldval x on (default_dim dim);
      ret (r, oldval, VStr "gen", dim))).
Proof.
  intros Ho Hent Hst Hon.
  assert (getpath (VDict o) ["ordering"; "status"; "on"] = ret on) as Hp.
  { cbn [getpath getitem]. rewrite Hent. cbn [of_option]. rewrite ret_bind.
    cbn [getitem]. rewrite Hst. cbn [of_option]. rewrite ret_bind.
    cbn [getitem]. rewrite Hon. cbn [of_option]. by rewrite ret_bind. }
  split.
  - intros Hne. cbn [int2ext getitem]. rewrite Ho. cbn [of_option].
    rewrite ret_bind. rewrite (proj2 (String.eqb_neq tag "gen")) by done.
    by rewrite ret_bind, Hp, ret_bind.
  - intros p Hi2e. cbn [int2ext getitem]. rewrite Ho. cbn [of_option].
    rewrite ret_bind. rewrite String.eqb_refl.
    assert (getpath (VDict o) ["ordering"; "i2e"] = ret p) as ->.
    { cbn [getpath getitem]. rewrite Hent. cbn [of_option]. rewrite ret_bind.
      cbn [getitem]. rewrite Hi2e. cbn [of_option]. by rewrite ret_bind. }
    rewrite ret_bind. rewrite Hp.
    destruct (get_reorder (VArr v) p (default_dim dim)) as [l [x|e]]; [|done].
    unfold mbind, M_bind, bind. cbn.
    by destruct (set_reorder oldval x on (default_dim dim)) as [l' [r|e]].
Qed.

(** The legacy form [int2ext(i2e, bus, gen, branch, areas)], when it
    returns: each row of [bus], [gen] and [branch] comes back with its
    bus-id column(s) looked up in [i2e] and its other columns as they were,
    row for row, and [areas = None] comes back as [None]. *)
Theorem legacy_remaps_tables depth (m : list Z) bus gen branch areas
    bus' gen' branch' areas' :
  outcome (int2ext BUS_I GEN_BUS F_BUS T_BUS PRICE_REF_BUS
             get_reorder set_reorder run_userfcn
             (S depth) (VVec m) bus gen branch areas)
  = Ok (bus', gen', branch', areas') →
  ∃ tb tg tbr tb' tg' tbr',
    bus = VArr tb ∧ gen = VArr tg ∧ branch = VArr tbr ∧
    bus' = VArr tb' ∧ gen' = VArr tg' ∧ branch' = VArr tbr' ∧
    Forall2 (λ r r', renumber_row m [BUS_I] r = Some r') (rows tb) (rows tb') ∧
    Forall2 (λ r r', renumber_row m [GEN_BUS] r = Some r') (rows tg) (rows tg') ∧
    Forall2 (λ r r', renumber_row m [F_BUS; T_BUS] r = Some r')
            (rows tbr) (rows tbr') ∧
    (areas = VNone → areas' = VNone).
Proof.
  intros H. cbn [int2ext] in H. minv H. injection H as <- <- <- <-.
  apply remap_col_ok in E as (tb & tb' & -> & -> & _ & Hb).
  apply remap_col_ok in E0 as (tg & tg' & -> & -> & _ & Hg).
  apply remap_col_ok in E1 as (tbr & tbr1 & -> & -> & _ & Hf).
  apply remap_col_ok in E2 as (? & tbr' & [= <-] & -> & _ & Ht).
  exists tb, tg, tbr, tb', tg', tbr'. split_and!; try done.
  - clear -Hf Ht. destruct tbr' as [c' l2]. cbn [rows] in *.
    revert l2 Ht. generalize dependent (rows tbr1). generalize (rows tbr).
    intros la lb Hf. induction Hf as [|r r1 la lb Hr _ IH]; intros l2 Ht.
    + apply Forall2_nil_inv_l in Ht as ->. constructor.
    + apply Forall2_cons_inv_l in Ht as (r2 & l2' & Hr2 & Ht & ->).
      constructor; [|by apply IH].
      by apply (renumber_row_app m [F_BUS] [T_BUS] r r1 r2).
  - intros ->. by apply outcome_ret in E3 as <-.
Qed.

(** The legacy form fails with [IndexError] when some bus id of the [bus]
    table lies outside [i2e] (at or beyond its length, or below minus its
    length). *)
Theorem legacy_id_out_of_range depth (m : list Z) (tb : ndarray)
    gen branch areas row id :
  row ∈ rows tb → row !! BUS_I = Some id →
  norm_index (length m) id = None →
  outcome (int2ext BUS_I GEN_BUS F_BUS T_BUS PRICE_REF_BUS
             get_reorder set_reorder run_userfcn
             (S depth) (VVec m) (VArr tb) gen branch areas)
  = Raise IndexError.
Proof.
  intros Hrow Hid Hn. cbn [int2ext]. rewrite outcome_bind.
  assert (outcome (remap_col (VVec m) (VArr tb) BUS_I) = Raise IndexError)
    as ->; [|done].
  unfold remap_col. cbn [arr_target]. rewrite ret_bind, outcome_bind.
  destruct (outcome (np_get_col tb BUS_I)) as [ids|e] eqn:Hids.
  - cbn [vec_target]. rewrite ret_bind, outcome_bind.
    unfold np_get_col in Hids. case_decide; [|done]. apply mapM_ok in Hids.
    apply list_elem_of_lookup_1 in Hrow as [j Hj].
    destruct (Forall2_lookup_l _ _ _ _ _ Hids Hj) as (id' & Hid' & Hr).
    apply outcome_of_option in Hr. rewrite Hid in Hr. injection Hr as <-.
    unfold np_take.
    rewrite (mapM_raises _ ids IndexError id); [done| |by eapply list_elem_of_lookup_2|].
    + intros y _. rewrite outcome_bind.
      destruct (norm_index (length m) y) as [n|]; [|by right].
      cbn [of_option ret outcome]. destruct (m !! n); [left; eauto|by right].
    + by rewrite outcome_bind, Hn.
  - unfold np_get_col in Hids. case_decide; [|by simplify_eq/=].
    assert (e = IndexError) as ->; [|done].
    clear -Hids. revert Hids. generalize (rows tb). intros l.
    induction l as [|r l IH]; [done|]. simpl. rewrite outcome_bind.
    destruct (r !! BUS_I); [|by intros [= <-]].
    cbn [of_option ret outcome]. rewrite outcome_bind.
    destruct (outcome (mapM _ l)); [done|]. intros [= <-]. by apply IH.
Qed.

Lemma getattr_ext v : getattr v "ext" = raise (AttributeError "ext").
Proof. by destruct v. Qed.

Lemma ordering_block_recur r1 r2 mpc o val oldval ordering dim k be bi :
  ordering_block get_reorder r1 mpc o val oldval ordering dim k (VInt be, VInt bi)
  = ordering_block get_reorder r2 mpc o val oldval ordering dim k (VInt be, VInt bi).
Proof.
  unfold ordering_block.
  do 8 (apply bind_ext; intros ? _).
  apply bind_ext. intros ri Hri.
  destruct a6; try done. apply outcome_ret in Hri as <-.
  cbn [py_add]. by rewrite !raise_bind.
Qed.

Lemma ordering_loop_recur r1 r2 mpc o val oldval ordering dim n :
  foldM (ordering_block get_reorder r1 mpc o val oldval ordering dim)
        (seq 0 n) (VInt 0, VInt 0)
  = foldM (ordering_block get_reorder r2 mpc o val oldval ordering dim)
          (seq 0 n) (VInt 0, VInt 0).
Proof.
  destruct n as [|n]; [done|]. cbn [seq foldM].
  rewrite (ordering_block_recur r1 r2).
  destruct (ordering_block_raises get_reorder r2 mpc o val oldval ordering dim
              0 0 0) as [e He].
  by rewrite !(logged_bind_raise _ _ e He).
Qed.

(** The calls of [int2ext] by itself (lines 177, 187 and 214) are never
    reached: whatever the arguments, the result does not depend on how
    deep the calls may nest. *)
Theorem int2ext_never_reenters depth i2e bus gen branch areas :
  int2ext BUS_I GEN_BUS F_BUS T_BUS PRICE_REF_BUS
    get_reorder set_reorder run_userfcn (S depth) i2e bus gen branch areas
  = int2ext BUS_I GEN_BUS F_BUS T_BUS PRICE_REF_BUS
      get_reorder set_reorder run_userfcn 1 i2e bus gen branch areas.
Proof.
  destruct i2e as [| | | | | | |mpc]; [reflexivity..|].
  destruct bus; [reflexivity| | |reflexivity| | | |].
  1,3-6: cbn [int2ext]; apply bind_ext; intros o _;
       (destruct branch; [| |reflexivity| | | | |]);
       apply bind_ext; intros len _;
       apply bind_cong_l, ordering_loop_recur.
  cbn [int2ext]. do 7 (apply bind_ext; intros ? _).
  by rewrite getattr_ext, !raise_bind.
Qed.

End OtherForms.

(** ** The restore runs through *)




Lemma in_range_lookup n idx j i :
  in_range n idx → idx !! j = Some i → is_Some (norm_index n i).
Proof. intros Hin Hj. by eapply (Forall_lookup_1 _ _ _ _ Hin). Qed.











Section PhasesRun.

Variables BUS_I GEN_BUS F_BUS T_BUS PRICE_REF_BUS : nat.



End PhasesRun.





Section Restorable.

Variables BUS_I GEN_BUS F_BUS T_BUS PRICE_REF_BUS : nat.
Variable get_reorder : value → value → value → M value.
Variable set_reorder : value → value → value → value → M value.
Variable run_userfcn :
  value → string → gmap string value → gmap string value →
  M (gmap string value * gmap string value).



(** A restored case is in external numbering: [int2ext] on it again logs
    that and hands it back as it is. *)
Theorem restore_twice depth depth' mpc o g b a r g' b' a' x y z :
  mpc !! "order" = Some (VDict o) → o !! "state" = Some (VStr "i") →
  outcome (int2ext BUS_I GEN_BUS F_BUS T_BUS PRICE_REF_BUS
             get_reorder set_reorder run_userfcn
             (S depth) (VDict mpc) VNone g b a) = Ok (VDict r, g', b', a') →
  int2ext BUS_I GEN_BUS F_BUS T_BUS PRICE_REF_BUS
    get_reorder set_reorder run_userfcn (S depth') (VDict r) VNone x y z
  = Run [msg_already_external] (Ok (VDict r, x, y, z)).
Proof.
  intros Ho Hs H.
  destruct (int2ext_restore_inv _ _ _ _ _ _ _ _ _ _ _ _ _ _ _ Ho Hs H)
    as (mpc1 & o1 & r1 & _ & Hr & [= <- _ _ _]).
  apply restore_body_ok in Hr
    as (_ & _ & _ & ord & _ & _ & Hord & Hst & _).
  cbn [int2ext].
  by rewrite (whole_case_not_internal _ _ _ _ _ _ r ord (VStr "e")).
Qed.

End Restorable.

(** ** More properties on concrete cases *)

Lemma restore_keeps_offline_rows_witness :
  ∃ res, ex_restored_full !! "areas" = Some (VArr res) ∧
         ncols res = 2%nat ∧ length (rows res) = 3%nat ∧
         ∀ n, n ∉ positions 3 [0; 2]%Z →
              rows res !! n = [[1; 10]; [2; 20]; [3; 30]]%Z !! n.
Proof.
  apply (restore_keeps_offline_rows 0 0 0 1 1 gather scatter no_userfcn 0
           ex_case_full ex_order_full ex_case_full ex_order_full
           VNone VNone VNone ex_restored_full VNone VNone VNone "areas"
           (NdArray 2 [[1; 10]; [2; 20]; [3; 30]]%Z) [0; 2]%Z);
    try reflexivity.
  - by apply (bool_decide_unpack _).
  - by eexists.
Defined.

Lemma restore_online_rows_witness :
  ∃ res, ex_restored_full !! "areas" = Some (VArr res) ∧
    ∀ j i, [0; 2]%Z !! j = Some i →
      ∃ n row id bn new,
        norm_index 3 i = Some n ∧
        [[1; 0]; [3; 1]]%Z !! j = Some row ∧
        row !! 1%nat = Some id ∧
        norm_index 2 id = Some bn ∧ [10; 30]%Z !! bn = Some new ∧
        rows res !! n = Some (<[1%nat := new]> row).
Proof.
  apply (restore_online_rows 0 0 0 1 1 gather scatter no_userfcn 0
           ex_case_full ex_order_full ex_case_full ex_order_full
           VNone VNone VNone ex_restored_full VNone VNone VNone "areas" 1
           (NdArray 2 [[1; 0]; [3; 1]]%Z)
           (NdArray 2 [[1; 10]; [2; 20]; [3; 30]]%Z) [0; 2]%Z [10; 30]%Z);
    try reflexivity.
  - by apply (bool_decide_unpack _).
  - by apply (bool_decide_unpack _).
Defined.

Lemma restore_branch_endpoints_witness :
  ∃ res, ex_restored_full !! "branch" = Some (VArr res) ∧
    ∀ j i, [0]%Z !! j = Some i →
      ∃ n row f nf newf t nt newt,
        norm_index 2 i = Some n ∧
        [[0; 1; 77]]%Z !! j = Some row ∧
        row !! 0%nat = Some f ∧
        norm_index 2 f = Some nf ∧ [10; 30]%Z !! nf = Some newf ∧
        row !! 1%nat = Some t ∧
        norm_index 2 t = Some nt ∧ [10; 30]%Z !! nt = Some newt ∧
        rows res !! n = Some (<[1%nat := newt]> (<[0%nat := newf]> row)).
Proof.
  apply (restore_branch_endpoints 0 0 0 1 1 gather scatter no_userfcn 0
           ex_case_full ex_order_full ex_case_full ex_order_full
           VNone VNone VNone ex_restored_full VNone VNone VNone
           (NdArray 3 [[0; 1; 77]]%Z)
           (NdArray 3 [[10; 30; 7]; [10; 20; 8]]%Z) [0]%Z [10; 30]%Z);
    try reflexivity.
  - done.
  - by apply (bool_decide_unpack _).
Defined.

Lemma restore_frame_witness :
  ex_restored_full !! "version" = ex_case_full !! "version" ∧
  ex_restored_full !! "gencost" = None.
Proof.
  split.
  - refine (proj1 (restore_frame 0 0 0 1 1 gather scatter no_userfcn 0
             ex_case_full ex_order_full ex_case_full ex_order_full
             VNone VNone VNone ex_restored_full VNone VNone VNone "version"
             _ _ _ _) _); try reflexivity.
    by apply (bool_decide_unpack _).
  - refine (proj2 (restore_frame 0 0 0 1 1 gather scatter no_userfcn 0
             ex_case_full ex_order_full ex_case_full ex_order_full
             VNone VNone VNone ex_restored_full VNone VNone VNone "gencost"
             _ _ _ _) _ _); try reflexivity.
    by apply (bool_decide_unpack _).
Defined.

Lemma restore_constraint_matrices_witness :
  ∃ e snap o' ic,
    ex_order_full !! "ext" = Some (VDict e) ∧ e !! "A" = Some snap ∧
    ex_restored_full !! "A" = Some snap ∧
    ex_restored_full !! "order" = Some (VDict o') ∧
    o' !! "int" = Some (VDict ic) ∧
    ic !! "A" = Some (tbl 1 [[4]]%Z).
Proof.
  apply (restore_constraint_matrices 0 0 0 1 1 gather scatter no_userfcn 0
           ex_case_full ex_order_full ex_case_full ex_order_full
           (tbl 1 [[4]]%Z) VNone VNone VNone ex_restored_full VNone VNone VNone
           "A");
    try reflexivity.
  by apply (bool_decide_unpack _).
Defined.

Lemma restore_order_record_witness :
  ∃ o' ic,
    ex_restored_full !! "order" = Some (VDict o') ∧
    (∀ k, k ∉ ["state"; "ext"; "int"] → o' !! k = ex_order_full !! k) ∧
    o' !! "int" = Some (VDict ic) ∧
    (∀ k, k ∈ ["bus"; "branch"; "gen"] →
          is_Some (ex_case_full !! k) ∧ ic !! k = ex_case_full !! k).
Proof.
  apply (restore_order_record 0 0 0 1 1 gather scatter no_userfcn 0
           ex_case_full ex_order_full ex_case_full ex_order_full
           VNone VNone VNone ex_restored_full VNone VNone VNone);
    reflexivity.
Defined.

Lemma restore_only_from_internal_state_witness :
  int2ext_std 1 (VDict (dict [("order", VDict (dict [("state", VStr "x")]))]))
    VNone VNone VNone VNone
  = Run [msg_already_external]
        (Ok (VDict (dict [("order", VDict (dict [("state", VStr "x")]))]),
             VNone, VNone, VNone)) ∧
  int2ext_std 1 (VDict (dict [("order", VDict ∅)])) VNone VNone VNone VNone
  = Run [] (Raise (KeyError "state")).
Proof.
  split.
  - refine (proj1 (restore_only_from_internal_state 0 0 0 1 1 gather scatter
                     no_userfcn 0 _ (dict [("state", VStr "x")])
                     VNone VNone VNone _) (VStr "x") _ _);
      [reflexivity|reflexivity|done].
  - refine (proj2 (restore_only_from_internal_state 0 0 0 1 1 gather scatter
                     no_userfcn 0 _ ∅ VNone VNone VNone _) _); reflexivity.
Defined.

Lemma restore_needs_bus_int_ext_witness :
  outcome (int2ext_std 1
             (VDict (dict [("order", VDict (dict [("state", VStr "i")]))]))
             VNone VNone VNone VNone) = Raise (KeyError "bus") ∧
  outcome (int2ext_std 1
             (VDict (dict [("bus", tbl 1 [[0]]%Z);
                           ("order", VDict (dict [("state", VStr "i")]))]))
             VNone VNone VNone VNone) = Raise (KeyError "int") ∧
  outcome (int2ext_std 1
             (VDict (dict [("bus", tbl 1 [[0]]%Z); ("branch", tbl 2 [[0; 0]]%Z);
                           ("gen", tbl 1 [[0]]%Z);
                           ("order", VDict (dict [("state", VStr "i");
                                                  ("int", VDict ∅)]))]))
             VNone VNone VNone VNone) = Raise (KeyError "ext").
Proof.
  split_and!.
  - refine (proj1 (restore_needs_bus_int_ext 0 0 0 1 1 gather scatter
                     no_userfcn 0 _ (dict [("state", VStr "i")])
                     VNone VNone VNone _ _ _) _); reflexivity.
  - refine (proj1 (proj2 (restore_needs_bus_int_ext 0 0 0 1 1 gather scatter
                     no_userfcn 0 _ (dict [("state", VStr "i")])
                     VNone VNone VNone _ _ _)) _ _);
      [reflexivity..|by eexists|reflexivity].
  - refine (proj2 (proj2 (restore_needs_bus_int_ext 0 0 0 1 1 gather scatter
                     no_userfcn 0 _ (dict [("state", VStr "i"); ("int", VDict ∅)])
                     VNone VNone VNone _ _ _)) ∅ _ _ _ _ _);
      [reflexivity..|by eexists|by eexists|by eexists|reflexivity|reflexivity].
Defined.

Lemma nested_field_conversion_never_returns_witness :
  int2ext_std 1 (VDict ex_case) (VList [VStr "order"; VStr "ext"]) (VStr "gen")
    VNone VNone
  = Run [] (Raise (NameError "s")).
Proof.
  apply (proj2 (nested_field_conversion_never_returns 0 0 0 1 1 gather scatter
                  no_userfcn 0 ex_case [VStr "order"; VStr "ext"] (VStr "gen")
                  VNone VNone)).
  done.
Defined.

Lemma field_conversion_failures_witness :
  outcome (int2ext_std 1 (VDict ex_case) (VStr "gencost") (VStr "gen")
             VNone VNone) = Raise (KeyError "field") ∧
  outcome (int2ext_std 1 (VDict (<["field" := tbl 1 [[1]]%Z]> ex_case))
             (VStr "gencost") (VStr "gen") VNone VNone)
  = Raise (AttributeError "ext").
Proof.
  split.
  - apply (proj1 (field_conversion_failures 0 0 0 1 1 gather scatter
                    no_userfcn 0 ex_case "gencost" (VStr "gen") VNone VNone)).
    reflexivity.
  - apply (proj2 (field_conversion_failures 0 0 0 1 1 gather scatter
                    no_userfcn 0 (<["field" := tbl 1 [[1]]%Z]> ex_case)
                    "gencost" (VStr "gen") VNone VNone)
             (tbl 1 [[1]]%Z) ex_order ∅); reflexivity.
Defined.

Lemma composite_conversion_failures_witness :
  outcome (int2ext_std 1 (VDict ex_case_blocks) (tbl 1 [[1]; [2]]%Z)
             (tbl 1 [[7]; [8]; [9]]%Z) (VList []) VNone)
  = Raise (NameError "size") ∧
  outcome (int2ext_std 1 (VDict ex_case_blocks) (tbl 1 [[1]; [2]]%Z)
             (tbl 1 [[7]; [8]; [9]]%Z) (VList [VStr "bus"]) VNone)
  = Raise TypeError.
Proof.
  split.
  - refine (proj1 (composite_conversion_failures 0 0 0 1 1 gather scatter
                     no_userfcn 0 ex_case_blocks _
                     (NdArray 1 [[1]; [2]]%Z) (tbl 1 [[7]; [8]; [9]]%Z) VNone
                     _)).
    reflexivity.
  - refine (proj2 (composite_conversion_failures 0 0 0 1 1 gather scatter
                     no_userfcn 0 ex_case_blocks _
                     (NdArray 1 [[1]; [2]]%Z) (tbl 1 [[7]; [8]; [9]]%Z) VNone
                     _) (VStr "bus") [] (NdArray 1 [[7]; [8]; [9]]%Z)
                     (NdArray 1 [[1]; [2]]%Z) [] [] _ _); reflexivity.
Defined.

Lemma single_tag_conversion_witness :
  int2ext_std 1 (VDict ex_case_tag) (tbl 1 [[1]; [2]]%Z)
    (tbl 1 [[7]; [8]; [9]]%Z) (VStr "bus") (VInt 0)
  = (r ← scatter (tbl 1 [[7]; [8]; [9]]%Z) (tbl 1 [[1]; [2]]%Z)
               (VVec [0; 2]%Z) (VInt 0);
     ret (r, tbl 1 [[7]; [8]; [9]]%Z, VStr "bus", VInt 0)) ∧
  int2ext_std 1 (VDict ex_case_tag) (tbl 1 [[1]; [2]]%Z)
    (tbl 1 [[7]; [8]; [9]]%Z) (VStr "gen") (VInt 0)
  = (x ← gather (tbl 1 [[1]; [2]]%Z) (VVec [1; 0]%Z) (VInt 0);
     r ← scatter (tbl 1 [[7]; [8]; [9]]%Z) x (VVec [0; 2]%Z) (VInt 0);
     ret (r, tbl 1 [[7]; [8]; [9]]%Z, VStr "gen", VInt 0)).
Proof.
  split.
  - refine (proj1 (single_tag_conversion 0 0 0 1 1 gather scatter no_userfcn 0
                     ex_case_tag _ _ _ (VVec [0; 2]%Z)
                     (NdArray 1 [[1]; [2]]%Z) (tbl 1 [[7]; [8]; [9]]%Z)
                     "bus" (VInt 0) _ _ _ _) _);
      [reflexivity..|done].
  - refine (proj2 (single_tag_conversion 0 0 0 1 1 gather scatter no_userfcn 0
                     ex_case_tag _ _ _ (VVec [0; 2]%Z)
                     (NdArray 1 [[1]; [2]]%Z) (tbl 1 [[7]; [8]; [9]]%Z)
                     "gen" (VInt 0) _ _ _ _) (VVec [1; 0]%Z) _);
      reflexivity.
Defined.

Lemma legacy_remaps_tables_witness :
  ∃ tb tg tbr tb' tg' tbr',
    tbl 2 [[0; 111]; [1; 333]]%Z = VArr tb ∧
    tbl 2 [[0; 71]; [1; 51]]%Z = VArr tg ∧
    tbl 3 [[0; 1; 77]]%Z = VArr tbr ∧
    tbl 2 [[10; 111]; [30; 333]]%Z = VArr tb' ∧
    tbl 2 [[10; 71]; [30; 51]]%Z = VArr tg' ∧
    tbl 3 [[10; 30; 77]]%Z = VArr tbr' ∧
    Forall2 (λ r r', renumber_row [10; 30]%Z [0%nat] r = Some r')
            (rows tb) (rows tb') ∧
    Forall2 (λ r r', renumber_row [10; 30]%Z [0%nat] r = Some r')
            (rows tg) (rows tg') ∧
    Forall2 (λ r r', renumber_row [10; 30]%Z [0%nat; 1%nat] r = Some r')
            (rows tbr) (rows tbr') ∧
    (VNone = VNone → VNone = VNone).
Proof.
  apply (legacy_remaps_tables 0 0 0 1 1 gather scatter no_userfcn 0
           [10; 30]%Z (tbl 2 [[0; 111]; [1; 333]]%Z)
           (tbl 2 [[0; 71]; [1; 51]]%Z) (tbl 3 [[0; 1; 77]]%Z) VNone).
  reflexivity.
Defined.

Lemma legacy_id_out_of_range_witness :
  outcome (int2ext_std 1 (VVec [10; 30]%Z) (tbl 2 [[0; 111]; [2; 333]]%Z)
             (tbl 2 [[0; 71]]%Z) (tbl 3 [[0; 1; 77]]%Z) VNone)
  = Raise IndexError.
Proof.
  apply (legacy_id_out_of_range 0 0 0 1 1 gather scatter no_userfcn 0
           [10; 30]%Z (NdArray 2 [[0; 111]; [2; 333]]%Z)
           (tbl 2 [[0; 71]]%Z) (tbl 3 [[0; 1; 77]]%Z) VNone
           [2; 333]%Z 2%Z).
  - right. left.
  - reflexivity.
  - reflexivity.
Defined.


Lemma restore_twice_witness :
  int2ext_std 1 (VDict ex_restored_full) VNone VNone VNone VNone
  = Run [msg_already_external]
        (Ok (VDict ex_restored_full, VNone, VNone, VNone)).
Proof.
  apply (restore_twice 0 0 0 1 1 gather scatter no_userfcn 0 0
           ex_case_full ex_order_full VNone VNone VNone
           ex_restored_full VNone VNone VNone); reflexivity.
Defined.
